(** * Billing ledger, invoice chain and proposal promotion of the podium backend

    A shallow embedding of the FastAPI handlers in
    [app/routers/contracts.py], [app/routers/invoices.py],
    [app/routers/proposals.py] and of [app/utils.py].

    - Each SQL table is a list of records in insertion order; an INSERT
      appends, an UPDATE maps over the rows matching its WHERE clause.
    - Money columns (NUMERIC in the database) are rationals [Q].
    - Timestamps ([datetime.now().isoformat()]) are [nat]s: ISO strings
      produced by one clock order chronologically.
    - A handler is a computation in a transaction monad: reads and
      writes go to the open transaction, [db.commit()] publishes it, and
      [get_db] closes the connection at the end of the request, which
      discards what was not committed ([run_request]). *)

From Stdlib Require Import String Ascii List QArith Bool Arith Lia.
From Stdlib Require Import DecimalString.
Import ListNotations.

Open Scope string_scope.
Open Scope nat_scope.

(** ** Python helpers *)

(** [a or b] for [str | None] values. *)
Definition py_or (a b : option string) : option string :=
  match a with
  | Some s => if String.eqb s "" then b else a
  | None => b
  end.

(** [f"{x}"] for a [str | None] value. *)
Definition py_fmt (a : option string) : string :=
  match a with Some s => s | None => "None" end.

(** Truthiness of a [str]. *)
Definition py_truthy (s : string) : bool := negb (String.eqb s "").

(** [x or 0] for a number. *)
Definition or0 (q : Q) : Q := if Qeq_bool q 0 then 0%Q else q.

Definition is_ascii_digit (c : ascii) : bool :=
  let n := nat_of_ascii c in Nat.leb 48 n && Nat.leb n 57.

(** [str.isdigit] on ASCII strings: non-empty and only digits. *)
Definition py_isdigit (s : string) : bool :=
  match s with
  | EmptyString => false
  | _ => forallb is_ascii_digit (list_ascii_of_string s)
  end.

(** [int(s)] on a string of ASCII digits. *)
Definition py_int (s : string) : nat :=
  fold_left (fun acc c => acc * 10 + (nat_of_ascii c - 48))%nat
            (list_ascii_of_string s) 0.

(** [str(n)] for a natural number. *)
Definition py_str_nat (n : nat) : string :=
  NilZero.string_of_uint (Nat.to_uint n).

(** [s.rsplit("-", 1)]: [Some (head, last)] when [s] contains a dash
    (two parts), [None] when it does not (one part). *)
Fixpoint rsplit_dash (s : string) : option (string * string) :=
  match s with
  | EmptyString => None
  | String c rest =>
      match rsplit_dash rest with
      | Some (a, b) => Some (String c a, b)
      | None => if Ascii.eqb c "-"%char then Some (EmptyString, rest) else None
      end
  end.

(** Stable insertion sort on a [nat] key ([ORDER BY key]). *)
Section SortBy.
Context {A : Type} (key : A -> nat).

Fixpoint insert_by (x : A) (l : list A) : list A :=
  match l with
  | [] => [x]
  | y :: l' => if key x <? key y then x :: y :: l' else y :: insert_by x l'
  end.

Fixpoint sort_by (l : list A) : list A :=
  match l with
  | [] => []
  | x :: l' => insert_by x (sort_by l')
  end.
End SortBy.

(** Sum of a list of rationals ([SUM] / a Python accumulation loop). *)
Definition sumQ (l : list Q) : Q := fold_left Qplus l 0%Q.

(** ** Data model (tables of the relational store) *)

Definition Timestamp := nat.

Record Project := mkProject {
  p_id : string;
  p_job_code : option string;
  p_project_number : option string;
  p_status : string;
  p_current_invoice_id : option string;
  p_updated_at : option Timestamp;
  p_deleted_at : option Timestamp
}.

Record Contract := mkContract {
  c_id : string;
  c_project_id : string;
  c_total_amount : Q;
  c_signed_at : option string;
  c_file_path : option string;
  c_created_at : Timestamp;
  c_updated_at : Timestamp;
  c_deleted_at : option Timestamp
}.

Record ContractTask := mkContractTask {
  ct_id : string;
  ct_contract_id : string;
  ct_sort_order : nat;
  ct_name : string;
  ct_description : option string;
  ct_amount : Q;
  ct_billed_amount : Q;
  ct_billed_percent : Q;
  ct_created_at : Timestamp;
  ct_updated_at : Timestamp
}.

Record Proposal := mkProposal {
  pr_id : string;
  pr_project_id : string;
  pr_total_fee : Q;
  pr_status : string;
  pr_updated_at : option Timestamp;
  pr_deleted_at : option Timestamp
}.

Record ProposalTask := mkProposalTask {
  pt_id : string;
  pt_proposal_id : string;
  pt_sort_order : nat;
  pt_name : string;
  pt_description : option string;
  pt_amount : Q
}.

Record Invoice := mkInvoice {
  i_id : string;
  i_invoice_number : option string;
  i_project_id : string;
  i_contract_id : option string;
  i_previous_invoice_id : option string;
  i_type : string;
  i_total_due : Q;
  i_sent_status : string;
  i_paid_status : string;
  i_sent_at : option Timestamp;
  i_paid_at : option string;
  i_description : option string;
  i_data_path : option string;
  i_pdf_path : option string;
  i_created_at : Timestamp;
  i_updated_at : Timestamp;
  i_deleted_at : option Timestamp
}.

Record LineItem := mkLineItem {
  li_id : string;
  li_invoice_id : string;
  li_sort_order : nat;
  li_name : string;
  li_description : option string;
  li_quantity : Q;
  li_unit_price : Q;
  li_amount : Q;
  li_previous_billing : Q;
  li_created_at : Timestamp
}.

Record Activity := mkActivity {
  act_id : string;
  act_action : string;
  act_entity_type : string;
  act_entity_id : string;
  act_project_id : option string
}.

Record DB := mkDB {
  projects : list Project;
  contracts : list Contract;
  contract_tasks : list ContractTask;
  proposals : list Proposal;
  proposal_tasks : list ProposalTask;
  invoices : list Invoice;
  invoice_line_items : list LineItem;
  activity_log : list Activity
}.

(** The outside world of one request: the clock reading taken by the
    handler ([now]), the same reading as the ISO string stored in text
    columns, and the random hex strings of [uuid4().hex[:8]]. *)
Record Env := mkEnv {
  env_now : Timestamp;
  env_now_iso : string;
  env_hex : nat -> string
}.

(** ** The transaction monad of a request *)

Inductive Err :=
| HTTPException (status_code : nat) (detail : string)
| AttributeError (attr : string)
| KeyError (key : string)
| ValueError (msg : string).

Inductive Result (A : Type) :=
| Ok (a : A)
| Raise (e : Err).
Arguments Ok {A} a.
Arguments Raise {A} e.

(** A connection: the working state of the open transaction, the state
    as of the last [commit], and the number of random ids drawn. *)
Record Tx := mkTx {
  tx_db : DB;
  tx_committed : DB;
  tx_draws : nat
}.

Definition M (A : Type) := Tx -> Result A * Tx.

Definition ret {A} (a : A) : M A := fun tx => (Ok a, tx).
Definition bind {A B} (m : M A) (f : A -> M B) : M B :=
  fun tx => match m tx with
            | (Ok a, tx') => f a tx'
            | (Raise e, tx') => (Raise e, tx')
            end.
Definition raise {A} (e : Err) : M A := fun tx => (Raise e, tx).
(** [db.execute(SELECT ...)]: read the working state. *)
Definition get : M DB := fun tx => (Ok (tx_db tx), tx).
(** [db.execute(INSERT / UPDATE ...)]. *)
Definition modify (f : DB -> DB) : M unit :=
  fun tx => (Ok tt, mkTx (f (tx_db tx)) (tx_committed tx) (tx_draws tx)).
(** [db.commit()]. *)
Definition commit : M unit :=
  fun tx => (Ok tt, mkTx (tx_db tx) (tx_db tx) (tx_draws tx)).

Notation "x <- m ;; k" := (bind m (fun x => k))
  (at level 61, m at next level, right associativity).
Notation "m ;;; k" := (bind m (fun _ => k))
  (at level 61, right associativity).

(** One HTTP request against the store [st]: [get_db] opens a connection
    and closes it when the handler returns or raises; whatever was not
    committed by then is discarded. *)
Definition run_request {A} (h : M A) (st : DB) : Result A * DB :=
  let '(r, tx) := h (mkTx st st 0) in (r, tx_committed tx).

(** [generate_id(prefix)]. *)
Definition generate_id (E : Env) (prefix : string) : M string :=
  fun tx => (Ok (prefix ++ env_hex E (tx_draws tx)),
             mkTx (tx_db tx) (tx_committed tx) (S (tx_draws tx))).

(** Table setters. *)
Definition set_projects (l : list Project) (st : DB) : DB :=
  {| projects := l; contracts := contracts st;
     contract_tasks := contract_tasks st; proposals := proposals st;
     proposal_tasks := proposal_tasks st; invoices := invoices st;
     invoice_line_items := invoice_line_items st;
     activity_log := activity_log st |}.
Definition set_contracts (l : list Contract) (st : DB) : DB :=
  {| projects := projects st; contracts := l;
     contract_tasks := contract_tasks st; proposals := proposals st;
     proposal_tasks := proposal_tasks st; invoices := invoices st;
     invoice_line_items := invoice_line_items st;
     activity_log := activity_log st |}.
Definition set_contract_tasks (l : list ContractTask) (st : DB) : DB :=
  {| projects := projects st; contracts := contracts st;
     contract_tasks := l; proposals := proposals st;
     proposal_tasks := proposal_tasks st; invoices := invoices st;
     invoice_line_items := invoice_line_items st;
     activity_log := activity_log st |}.
Definition set_proposals (l : list Proposal) (st : DB) : DB :=
  {| projects := projects st; contracts := contracts st;
     contract_tasks := contract_tasks st; proposals := l;
     proposal_tasks := proposal_tasks st; invoices := invoices st;
     invoice_line_items := invoice_line_items st;
     activity_log := activity_log st |}.
Definition set_invoices (l : list Invoice) (st : DB) : DB :=
  {| projects := projects st; contracts := contracts st;
     contract_tasks := contract_tasks st; proposals := proposals st;
     proposal_tasks := proposal_tasks st; invoices := l;
     invoice_line_items := invoice_line_items st;
     activity_log := activity_log st |}.
Definition set_line_items (l : list LineItem) (st : DB) : DB :=
  {| projects := projects st; contracts := contracts st;
     contract_tasks := contract_tasks st; proposals := proposals st;
     proposal_tasks := proposal_tasks st; invoices := invoices st;
     invoice_line_items := l;
     activity_log := activity_log st |}.
Definition set_activity_log (l : list Activity) (st : DB) : DB :=
  {| projects := projects st; contracts := contracts st;
     contract_tasks := contract_tasks st; proposals := proposals st;
     proposal_tasks := proposal_tasks st; invoices := invoices st;
     invoice_line_items := invoice_line_items st;
     activity_log := l |}.

(** ** [app/utils.py]: [next_invoice_number] *)

Definition invoice_suffix_step (max_num : nat) (row : Invoice) : nat :=
  let inv_num := match i_invoice_number row with
                 | Some s => if py_truthy s then s else ""
                 | None => ""
                 end in
  match rsplit_dash inv_num with
  | Some (_, last) => if py_isdigit last then Nat.max max_num (py_int last) else max_num
  | None => max_num
  end.

Definition next_invoice_number (st : DB) (project_id : string) : string :=
  let proj := find (fun p => String.eqb (p_id p) project_id) (projects st) in
  let prefix := match proj with
                | Some p => py_fmt (py_or (p_job_code p) (p_project_number p))
                | None => project_id
                end in
  let rows := filter (fun i => String.eqb (i_project_id i) project_id) (invoices st) in
  let max_num := fold_left invoice_suffix_step rows 0 in
  prefix ++ "-" ++ py_str_nat (max_num + 1).

(** ** [app/routers/contracts.py]: reading a contract *)

Definition is_none {A} (o : option A) : bool :=
  match o with None => true | Some _ => false end.

Definition opt_str_eqb (a : option string) (b : string) : bool :=
  match a with Some s => String.eqb s b | None => false end.

(** The rows of
    [FROM invoice_line_items li JOIN invoices inv ON li.invoice_id = inv.id
     WHERE inv.contract_id = %s AND inv.deleted_at IS NULL]. *)
Definition active_contract_invoice (contract_id : string) (inv : Invoice) : bool :=
  opt_str_eqb (i_contract_id inv) contract_id && is_none (i_deleted_at inv).

Definition billing_join (st : DB) (contract_id : string) : list LineItem :=
  flat_map (fun li =>
              flat_map (fun inv =>
                          if String.eqb (li_invoice_id li) (i_id inv)
                             && active_contract_invoice contract_id inv
                          then [li] else [])
                       (invoices st))
           (invoice_line_items st).

(** [GROUP BY li.name] with [COALESCE(SUM(li.amount), 0)], collected into
    the dict [billed_by_name]. *)
Fixpoint group_add (name : string) (a : Q) (groups : list (string * Q))
  : list (string * Q) :=
  match groups with
  | [] => [(name, a)]
  | (n, t) :: g => if String.eqb n name then (n, (t + a)%Q) :: g
                   else (n, t) :: group_add name a g
  end.

Definition group_sum_by_name (rows : list LineItem) : list (string * Q) :=
  fold_left (fun g li => group_add (li_name li) (li_amount li) g) rows [].

(** [dict.get(key, default)]. *)
Fixpoint dict_get (d : list (string * Q)) (k : string) (default : Q) : Q :=
  match d with
  | [] => default
  | (n, v) :: d' => if String.eqb n k then v else dict_get d' k default
  end.

Definition with_billing (t : ContractTask) (billed percent : Q) : ContractTask :=
  {| ct_id := ct_id t; ct_contract_id := ct_contract_id t;
     ct_sort_order := ct_sort_order t; ct_name := ct_name t;
     ct_description := ct_description t; ct_amount := ct_amount t;
     ct_billed_amount := billed; ct_billed_percent := percent;
     ct_created_at := ct_created_at t; ct_updated_at := ct_updated_at t |}.

Definition _compute_task_billing (st : DB) (contract_id : string)
    (tasks : list ContractTask) : list ContractTask :=
  let billed_by_name := group_sum_by_name (billing_join st contract_id) in
  map (fun task =>
         let billed := dict_get billed_by_name (ct_name task) 0%Q in
         with_billing task billed
           (if Qeq_bool (ct_amount task) 0 then 0%Q
            else (billed / ct_amount task * 100)%Q))
      tasks.

Record ContractView := mkContractView {
  cv_contract : Contract;
  cv_tasks : list ContractTask
}.

Definition get_contract (contract_id : string) : M ContractView :=
  st <- get ;;
  match find (fun c => String.eqb (c_id c) contract_id && is_none (c_deleted_at c))
             (contracts st) with
  | None => raise (HTTPException 404 "Contract not found")
  | Some row =>
      let tasks := sort_by ct_sort_order
                     (filter (fun t => String.eqb (ct_contract_id t) contract_id)
                             (contract_tasks st)) in
      ret {| cv_contract := row; cv_tasks := _compute_task_billing st contract_id tasks |}
  end.

(** The billed amount of a task as the ledger defines it: the sum of
    [amount] over the line items named like the task in the join of the
    line items with the contract's non-deleted invoices. *)
Definition task_billed_amount (st : DB) (contract_id : string) (name : string) : Q :=
  sumQ (map li_amount (filter (fun li => String.eqb (li_name li) name)
                              (billing_join st contract_id))).

(** ** [app/routers/contracts.py]: [create_invoice_from_contract] *)

(** One entry of [data.tasks]: [{"task_id": ..., "percent_this_invoice": ...}]. *)
Record TaskSpec := mkTaskSpec {
  ts_task_id : string;
  ts_percent_this_invoice : Q
}.

(** The request body with every attribute the handler reads. *)
Record InvoiceFromContract := mkInvoiceFromContract {
  ifc_tasks : list TaskSpec;
  ifc_pm_email : option string;
  ifc_invoice_number : option string;
  ifc_skip_sheet : bool
}.

(** The fields the pydantic model [InvoiceFromContract] of
    [app/models/invoice.py] declares. *)
Definition InvoiceFromContract_fields : list string := ["tasks"; "pm_email"].

(** The fields the router reads from it. *)
Definition InvoiceFromContract_router_fields : list string :=
  ["tasks"; "pm_email"; "invoice_number"; "skip_sheet"].

(** Attribute read [data.<name>] on a pydantic model instance whose class
    declares [declared]: an undeclared name raises [AttributeError]. *)
Definition getattr {A} (declared : list string) (name : string) (v : A) : M A :=
  if existsb (String.eqb name) declared then ret v else raise (AttributeError name).

Definition find_active_contract (st : DB) (contract_id : string) : option Contract :=
  find (fun c => String.eqb (c_id c) contract_id && is_none (c_deleted_at c)) (contracts st).

(** [ORDER BY created_at DESC LIMIT 1] (the first of equal timestamps). *)
Definition latest_created (l : list Invoice) : option Invoice :=
  fold_left (fun best inv =>
               match best with
               | None => Some inv
               | Some b => if i_created_at b <? i_created_at inv then Some inv else best
               end) l None.

Definition prev_invoice_query (st : DB) (project_id contract_id : string) : option Invoice :=
  latest_created
    (filter (fun i => String.eqb (i_project_id i) project_id
                      && opt_str_eqb (i_contract_id i) contract_id
                      && is_none (i_deleted_at i))
            (invoices st)).

(** A line item computed by the loop, before it is inserted. *)
(** (The [task_id] key of the dict is only passed to the sheet step.) *)
Record LineDraft := mkLineDraft {
  ld_name : string;
  ld_description : option string;
  ld_unit_price : Q;
  ld_quantity : Q;
  ld_amount : Q;
  ld_previous_billing : Q
}.

(** The [SUM(li.amount)] query of the loop: the join of line items with the
    contract's non-deleted invoices, restricted to [li.name = %s]. *)
Definition previous_billing_query (st : DB) (contract_id name : string) : Q :=
  sumQ (map li_amount (filter (fun li => String.eqb (li_name li) name)
                              (billing_join st contract_id))).

Definition find_contract_task (st : DB) (task_id contract_id : string)
  : option ContractTask :=
  find (fun t => String.eqb (ct_id t) task_id && String.eqb (ct_contract_id t) contract_id)
       (contract_tasks st).

(** [for task_spec in data.tasks: ...] *)
Fixpoint line_items_loop (contract_id : string) (specs : list TaskSpec)
    (total_due : Q) (acc : list LineDraft) : M (list LineDraft * Q) :=
  match specs with
  | [] => ret (acc, total_due)
  | spec :: rest =>
      st <- get ;;
      match find_contract_task st (ts_task_id spec) contract_id with
      | None => raise (HTTPException 404 ("Task " ++ ts_task_id spec ++ " not found"))
      | Some task =>
          let current_billing := (ct_amount task * ts_percent_this_invoice spec / 100)%Q in
          let previous_billing := previous_billing_query st contract_id (ct_name task) in
          let li := {| ld_name := ct_name task;
                       ld_description := ct_description task;
                       ld_unit_price := ct_amount task;
                       ld_quantity := ts_percent_this_invoice spec;
                       ld_amount := current_billing;
                       ld_previous_billing := previous_billing |} in
          line_items_loop contract_id rest (total_due + current_billing)%Q (acc ++ [li])
      end
  end.

(** [INSERT INTO invoice_line_items ...] for [enumerate(line_items)]. *)
Fixpoint insert_line_items (E : Env) (inv_id : string) (i : nat)
    (lds : list LineDraft) (now : Timestamp) : M (list LineItem) :=
  match lds with
  | [] => ret []
  | ld :: rest =>
      li_id <- generate_id E "li-" ;;
      let row := {| li_id := li_id; li_invoice_id := inv_id; li_sort_order := S i;
                    li_name := ld_name ld; li_description := ld_description ld;
                    li_quantity := ld_quantity ld; li_unit_price := ld_unit_price ld;
                    li_amount := ld_amount ld;
                    li_previous_billing := ld_previous_billing ld;
                    li_created_at := now |} in
      modify (fun st => set_line_items (invoice_line_items st ++ [row]) st) ;;;
      rows <- insert_line_items E inv_id (S i) rest now ;;
      ret (row :: rows)
  end.

Definition set_current_invoice (p : Project) (cur : option string)
    (updated_at : option Timestamp) : Project :=
  {| p_id := p_id p; p_job_code := p_job_code p;
     p_project_number := p_project_number p; p_status := p_status p;
     p_current_invoice_id := cur; p_updated_at := updated_at;
     p_deleted_at := p_deleted_at p |}.

(** [INSERT INTO invoices (id, invoice_number, project_id, contract_id,
    previous_invoice_id, type, total_due, created_at, updated_at)]; the
    other columns take their defaults. *)
Definition new_invoice_row (inv_id invoice_number project_id : string)
    (contract_id : option string)
    (previous_invoice_id : option string) (total_due : Q) (now : Timestamp) : Invoice :=
  {| i_id := inv_id; i_invoice_number := Some invoice_number;
     i_project_id := project_id; i_contract_id := contract_id;
     i_previous_invoice_id := previous_invoice_id; i_type := "task";
     i_total_due := total_due; i_sent_status := "unsent"; i_paid_status := "unpaid";
     i_sent_at := None; i_paid_at := None; i_description := None;
     i_data_path := None; i_pdf_path := None; i_created_at := now;
     i_updated_at := now; i_deleted_at := None |}.

(** The handler up to its [db.commit()] and the read of [data.skip_sheet]
    that follows it; the sheet step after it catches every exception and
    writes only [data_path].  [declared] are the fields of the request
    model. *)
Definition create_invoice_from_contract (E : Env) (declared : list string)
    (contract_id : string) (data : InvoiceFromContract) : M Invoice :=
  st0 <- get ;;
  match find_active_contract st0 contract_id with
  | None => raise (HTTPException 404 "Contract not found")
  | Some contract =>
      let project_id := c_project_id contract in
      let now := env_now E in
      inv_id <- generate_id E "inv-" ;;
      override <- getattr declared "invoice_number" (ifc_invoice_number data) ;;
      st1 <- get ;;
      let invoice_number := match py_or override None with
                            | Some n => n
                            | None => next_invoice_number st1 project_id
                            end in
      let previous_invoice_id := option_map i_id (prev_invoice_query st1 project_id contract_id) in
      tasks <- getattr declared "tasks" (ifc_tasks data) ;;
      res <- line_items_loop contract_id tasks 0%Q [] ;;
      let '(line_items, total_due) := res in
      let inv := new_invoice_row inv_id invoice_number project_id (Some contract_id)
                   previous_invoice_id total_due now in
      modify (fun st => set_invoices (invoices st ++ [inv]) st) ;;;
      _ <- insert_line_items E inv_id 0 line_items now ;;
      modify (fun st => set_projects
                (map (fun p => if String.eqb (p_id p) project_id
                               then set_current_invoice p (Some inv_id) (p_updated_at p)
                               else p) (projects st)) st) ;;;
      commit ;;;
      _ <- getattr declared "skip_sheet" (ifc_skip_sheet data) ;;
      ret inv
  end.

(** ** [app/routers/invoices.py]: [create_next_invoice] *)

Definition find_active_invoice (st : DB) (invoice_id : string) : option Invoice :=
  find (fun i => String.eqb (i_id i) invoice_id && is_none (i_deleted_at i)) (invoices st).

(** [SELECT * FROM invoice_line_items WHERE invoice_id = %s ORDER BY sort_order]. *)
Definition line_items_of (st : DB) (invoice_id : string) : list LineItem :=
  sort_by li_sort_order
    (filter (fun li => String.eqb (li_invoice_id li) invoice_id) (invoice_line_items st)).

(** The new line item built from an old one. *)
Definition carry_forward (li : LineItem) : LineDraft :=
  let new_previous_billing := (or0 (li_previous_billing li) + or0 (li_amount li))%Q in
  {| ld_name := li_name li; ld_description := li_description li;
     ld_unit_price := li_unit_price li; ld_quantity := 0%Q; ld_amount := 0%Q;
     ld_previous_billing := new_previous_billing |}.

Definition create_next_invoice (E : Env) (invoice_id : string) : M Invoice :=
  st0 <- get ;;
  match find_active_invoice st0 invoice_id with
  | None => raise (HTTPException 404 "Invoice not found")
  | Some invoice =>
      if negb (String.eqb (i_sent_status invoice) "sent")
      then raise (HTTPException 400 "Invoice must be sent before creating next")
      else
      match line_items_of st0 invoice_id with
      | [] => raise (HTTPException 400 "No line items on current invoice")
      | line_items =>
          let project_id := i_project_id invoice in
          let contract_id := i_contract_id invoice in
          let now := env_now E in
          let new_invoice_number := next_invoice_number st0 project_id in
          new_inv_id <- generate_id E "inv-" ;;
          let new_line_items := map carry_forward line_items in
          let inv := new_invoice_row new_inv_id new_invoice_number project_id contract_id
                       (Some invoice_id) 0%Q now in
          modify (fun st => set_invoices (invoices st ++ [inv]) st) ;;;
          _ <- insert_line_items E new_inv_id 0 new_line_items now ;;
          modify (fun st => set_projects
                    (map (fun p => if String.eqb (p_id p) project_id
                                   then set_current_invoice p (Some new_inv_id) (Some now)
                                   else p) (projects st)) st) ;;;
          commit ;;;
          ret inv
      end
  end.

(** ** [app/routers/invoices.py]: [delete_invoice] *)

Definition set_deleted_at (i : Invoice) (now : Timestamp) : Invoice :=
  {| i_id := i_id i; i_invoice_number := i_invoice_number i;
     i_project_id := i_project_id i; i_contract_id := i_contract_id i;
     i_previous_invoice_id := i_previous_invoice_id i; i_type := i_type i;
     i_total_due := i_total_due i; i_sent_status := i_sent_status i;
     i_paid_status := i_paid_status i; i_sent_at := i_sent_at i;
     i_paid_at := i_paid_at i; i_description := i_description i;
     i_data_path := i_data_path i; i_pdf_path := i_pdf_path i;
     i_created_at := i_created_at i; i_updated_at := i_updated_at i;
     i_deleted_at := Some now |}.

Definition delete_invoice (E : Env) (invoice_id : string) : M unit :=
  st0 <- get ;;
  match find_active_invoice st0 invoice_id with
  | None => raise (HTTPException 404 "Invoice not found")
  | Some inv =>
      let now := env_now E in
      modify (fun st => set_invoices
                (map (fun i => if String.eqb (i_id i) invoice_id then set_deleted_at i now else i)
                     (invoices st)) st) ;;;
      (if py_truthy (i_project_id inv)
       then modify (fun st => set_projects
                      (map (fun p => if String.eqb (p_id p) (i_project_id inv)
                                        && opt_str_eqb (p_current_invoice_id p) invoice_id
                                     then set_current_invoice p None (p_updated_at p)
                                     else p) (projects st)) st)
       else ret tt) ;;;
      commit
  end.

(** ** [app/routers/invoices.py]: [update_invoice] *)

(** One entry of [data.line_items]; [None] is a key the dict lacks. *)
Record LineItemPatch := mkLineItemPatch {
  lp_quantity : option Q;
  lp_unit_price : option Q;
  lp_previous_billing : option Q
}.

(** The request body with every attribute the handler reads; [None] is
    a field left at its default [None]. *)
Record InvoiceUpdate := mkInvoiceUpdate {
  iu_sent_status : option string;
  iu_paid_status : option string;
  iu_paid_at : option string;
  iu_total_due : option Q;
  iu_description : option string;
  iu_data_path : option string;
  iu_pdf_path : option string;
  iu_line_items : option (list LineItemPatch)
}.

(** The fields the pydantic model [InvoiceUpdate] of [app/models/invoice.py]
    declares. *)
Definition InvoiceUpdate_fields : list string :=
  ["sent_status"; "paid_status"; "paid_at"; "total_due"; "description";
   "data_path"; "pdf_path"].

(** The fields the router reads from it. *)
Definition InvoiceUpdate_router_fields : list string :=
  ["sent_status"; "paid_status"; "paid_at"; "total_due"; "description";
   "data_path"; "pdf_path"; "line_items"].

Definition default {A} (d : A) (o : option A) : A :=
  match o with Some v => v | None => d end.

Definition set_line_item_values (li : LineItem) (quantity unit_price amount previous_billing : Q)
  : LineItem :=
  {| li_id := li_id li; li_invoice_id := li_invoice_id li; li_sort_order := li_sort_order li;
     li_name := li_name li; li_description := li_description li;
     li_quantity := quantity; li_unit_price := unit_price; li_amount := amount;
     li_previous_billing := previous_billing; li_created_at := li_created_at li |}.

(** [for i, old_li in enumerate(old_items): if i < len(new_line_items): ...] *)
Fixpoint update_items_loop (new_line_items : list LineItemPatch)
    (old_items : list LineItem) (i : nat) (total : Q) : M Q :=
  match old_items with
  | [] => ret total
  | old_li :: rest =>
      match nth_error new_line_items i with
      | Some new_li =>
          let quantity := default (li_quantity old_li) (lp_quantity new_li) in
          let unit_price := default (li_unit_price old_li) (lp_unit_price new_li) in
          let amount := (unit_price * quantity / 100)%Q in
          let previous_billing := default (li_previous_billing old_li) (lp_previous_billing new_li) in
          modify (fun st => set_line_items
                    (map (fun li => if String.eqb (li_id li) (li_id old_li)
                                    then set_line_item_values li quantity unit_price amount previous_billing
                                    else li) (invoice_line_items st)) st) ;;;
          update_items_loop new_line_items rest (S i) (total + amount)%Q
      | None => update_items_loop new_line_items rest (S i) total
      end
  end.

(** [updates]: the non-[None] fields of [model_dump(exclude={"line_items"})]. *)
Definition no_field_updates (data : InvoiceUpdate) : bool :=
  is_none (iu_sent_status data) && is_none (iu_paid_status data)
  && is_none (iu_paid_at data) && is_none (iu_total_due data)
  && is_none (iu_description data) && is_none (iu_data_path data)
  && is_none (iu_pdf_path data).

Definition opt_or {A} (o : option A) (d : option A) : option A :=
  match o with Some v => Some v | None => d end.

(** [UPDATE invoices SET <updates> WHERE id = %s] on one row. *)
Definition apply_invoice_updates (E : Env) (data : InvoiceUpdate) (total_due : option Q)
    (inv : Invoice) : Invoice :=
  let now := env_now E in
  {| i_id := i_id inv; i_invoice_number := i_invoice_number inv;
     i_project_id := i_project_id inv; i_contract_id := i_contract_id inv;
     i_previous_invoice_id := i_previous_invoice_id inv; i_type := i_type inv;
     i_total_due := default (i_total_due inv) total_due;
     i_sent_status := default (i_sent_status inv) (iu_sent_status data);
     i_paid_status := default (i_paid_status inv) (iu_paid_status data);
     i_sent_at := if opt_str_eqb (iu_sent_status data) "sent" then Some now else i_sent_at inv;
     i_paid_at := match iu_paid_at data with
                  | Some s => Some s
                  | None => if opt_str_eqb (iu_paid_status data) "paid"
                            then Some (env_now_iso E) else i_paid_at inv
                  end;
     i_description := opt_or (iu_description data) (i_description inv);
     i_data_path := opt_or (iu_data_path data) (i_data_path inv);
     i_pdf_path := opt_or (iu_pdf_path data) (i_pdf_path inv);
     i_created_at := i_created_at inv; i_updated_at := now;
     i_deleted_at := i_deleted_at inv |}.

Definition find_invoice (st : DB) (invoice_id : string) : option Invoice :=
  find (fun i => String.eqb (i_id i) invoice_id) (invoices st).

Definition update_invoice (E : Env) (declared : list string) (invoice_id : string)
    (data : InvoiceUpdate) : M Invoice :=
  st0 <- get ;;
  match find_active_invoice st0 invoice_id with
  | None => raise (HTTPException 404 "Invoice not found")
  | Some existing =>
      new_line_items <- getattr declared "line_items" (iu_line_items data) ;;
      total_due <-
        match new_line_items with
        | None => ret (iu_total_due data)
        | Some nls =>
            total <- update_items_loop nls (line_items_of st0 invoice_id) 0 0%Q ;;
            ret (match iu_total_due data with Some t => Some t | None => Some total end)
        end ;;
      if no_field_updates data && is_none new_line_items then ret existing
      else
        modify (fun st => set_invoices
                  (map (fun i => if String.eqb (i_id i) invoice_id
                                 then apply_invoice_updates E data total_due i else i)
                       (invoices st)) st) ;;;
        commit ;;;
        st <- get ;;
        ret (default existing (find_invoice st invoice_id))
  end.

(** ** [app/routers/proposals.py]: [promote_to_contract] *)

Definition _get_proposal_dict (proposal_id : string) : M Proposal :=
  st <- get ;;
  match find (fun p => String.eqb (pr_id p) proposal_id && is_none (pr_deleted_at p))
             (proposals st) with
  | None => raise (HTTPException 404 "Proposal not found")
  | Some row => ret row
  end.

(** [INSERT INTO contract_tasks ...] for each proposal task. *)
Fixpoint copy_proposal_tasks (E : Env) (contract_id : string) (tasks : list ProposalTask)
  : M unit :=
  match tasks with
  | [] => ret tt
  | task :: rest =>
      ctask_id <- generate_id E "ctask-" ;;
      let row := {| ct_id := ctask_id; ct_contract_id := contract_id;
                    ct_sort_order := pt_sort_order task; ct_name := pt_name task;
                    ct_description := pt_description task; ct_amount := pt_amount task;
                    ct_billed_amount := 0%Q; ct_billed_percent := 0%Q;
                    ct_created_at := env_now E; ct_updated_at := env_now E |} in
      modify (fun st => set_contract_tasks (contract_tasks st ++ [row]) st) ;;;
      copy_proposal_tasks E contract_id rest
  end.

Definition set_proposal_status (p : Proposal) (status : string) (now : Timestamp) : Proposal :=
  {| pr_id := pr_id p; pr_project_id := pr_project_id p; pr_total_fee := pr_total_fee p;
     pr_status := status; pr_updated_at := Some now; pr_deleted_at := pr_deleted_at p |}.

Definition set_project_status (p : Project) (status : string) (now : Timestamp) : Project :=
  {| p_id := p_id p; p_job_code := p_job_code p; p_project_number := p_project_number p;
     p_status := status; p_current_invoice_id := p_current_invoice_id p;
     p_updated_at := Some now; p_deleted_at := p_deleted_at p |}.

(** [log_activity]: a best-effort insert that never raises. *)
Definition log_activity (E : Env) (action entity_type entity_id : string)
    (project_id : option string) : M unit :=
  aid <- generate_id E "act-" ;;
  modify (fun st => set_activity_log
            (activity_log st ++ [{| act_id := aid; act_action := action;
                                    act_entity_type := entity_type;
                                    act_entity_id := entity_id;
                                    act_project_id := project_id |}]) st).

Definition promote_to_contract (E : Env) (proposal_id : string)
    (signed_at file_path : option string) : M ContractView :=
  proposal <- _get_proposal_dict proposal_id ;;
  let now := env_now E in
  contract_id <- generate_id E "con-" ;;
  let project_id := pr_project_id proposal in
  let contract := {| c_id := contract_id; c_project_id := project_id;
                     c_total_amount := pr_total_fee proposal;
                     c_signed_at := Some (default (env_now_iso E) (py_or signed_at None));
                     c_file_path := file_path; c_created_at := now; c_updated_at := now;
                     c_deleted_at := None |} in
  modify (fun st => set_contracts (contracts st ++ [contract]) st) ;;;
  st1 <- get ;;
  let tasks := sort_by pt_sort_order
                 (filter (fun t => String.eqb (pt_proposal_id t) proposal_id)
                         (proposal_tasks st1)) in
  copy_proposal_tasks E contract_id tasks ;;;
  modify (fun st => set_proposals
            (map (fun p => if String.eqb (pr_id p) proposal_id
                           then set_proposal_status p "accepted" now else p)
                 (proposals st)) st) ;;;
  modify (fun st => set_projects
            (map (fun p => if String.eqb (p_id p) project_id
                           then set_project_status p "contract" now else p)
                 (projects st)) st) ;;;
  log_activity E "promoted" "proposal" proposal_id (Some project_id) ;;;
  commit ;;;
  st2 <- get ;;
  let row := default contract (find (fun c => String.eqb (c_id c) contract_id) (contracts st2)) in
  ret {| cv_contract := row;
         cv_tasks := sort_by ct_sort_order
                       (filter (fun t => String.eqb (ct_contract_id t) contract_id)
                               (contract_tasks st2)) |}.

(** ** [app/routers/projects.py]: [add_invoice_to_project] *)

Definition add_invoice_to_project (E : Env) (project_id : string)
    (invoice_number : option string) (invoice_type : string)
    (description : option string) (total_due : Q) : M Invoice :=
  st0 <- get ;;
  match find (fun p => String.eqb (p_id p) project_id && is_none (p_deleted_at p))
             (projects st0) with
  | None => raise (HTTPException 404 "Project not found")
  | Some _ =>
      let now := env_now E in
      inv_id <- generate_id E "inv-" ;;
      st1 <- get ;;
      let number := match py_or invoice_number None with
                    | Some n => n
                    | None => next_invoice_number st1 project_id
                    end in
      let inv := {| i_id := inv_id; i_invoice_number := Some number;
                    i_project_id := project_id; i_contract_id := None;
                    i_previous_invoice_id := None; i_type := invoice_type;
                    i_total_due := total_due; i_sent_status := "unsent";
                    i_paid_status := "unpaid"; i_sent_at := None; i_paid_at := None;
                    i_description := description; i_data_path := None;
                    i_pdf_path := None; i_created_at := now; i_updated_at := now;
                    i_deleted_at := None |} in
      modify (fun st => set_invoices (invoices st ++ [inv]) st) ;;;
      commit ;;;
      ret inv
  end.

(** The prefix [next_invoice_number] computes for a project. *)
Definition invoice_number_prefix (st : DB) (project_id : string) : string :=
  match find (fun p => String.eqb (p_id p) project_id) (projects st) with
  | Some p => py_fmt (py_or (p_job_code p) (p_project_number p))
  | None => project_id
  end.

(** The numeric suffix of an invoice number: the digits after its last dash. *)
Definition numeric_suffix (row : Invoice) : option nat :=
  match i_invoice_number row with
  | Some s => match rsplit_dash s with
              | Some (_, last) => if py_isdigit last then Some (py_int last) else None
              | None => None
              end
  | None => None
  end.

(** ** The store after a promotion *)

Definition find_active_proposal (st : DB) (proposal_id : string) : option Proposal :=
  find (fun p => String.eqb (pr_id p) proposal_id && is_none (pr_deleted_at p)) (proposals st).

(** The rows [copy_proposal_tasks] inserts, the [draws]-th random id first. *)
Fixpoint ctask_rows (E : Env) (contract_id : string) (draws : nat)
    (tasks : list ProposalTask) : list ContractTask :=
  match tasks with
  | [] => []
  | task :: rest =>
      {| ct_id := "ctask-" ++ env_hex E draws; ct_contract_id := contract_id;
         ct_sort_order := pt_sort_order task; ct_name := pt_name task;
         ct_description := pt_description task; ct_amount := pt_amount task;
         ct_billed_amount := 0%Q; ct_billed_percent := 0%Q;
         ct_created_at := env_now E; ct_updated_at := env_now E |}
      :: ctask_rows E contract_id (S draws) rest
  end.

Definition promoted_contract (E : Env) (pr : Proposal) (signed_at file_path : option string)
  : Contract :=
  {| c_id := "con-" ++ env_hex E 0; c_project_id := pr_project_id pr;
     c_total_amount := pr_total_fee pr;
     c_signed_at := Some (default (env_now_iso E) (py_or signed_at None));
     c_file_path := file_path; c_created_at := env_now E; c_updated_at := env_now E;
     c_deleted_at := None |}.

Definition proposal_tasks_of (st : DB) (proposal_id : string) : list ProposalTask :=
  sort_by pt_sort_order
    (filter (fun t => String.eqb (pt_proposal_id t) proposal_id) (proposal_tasks st)).

Definition promote_db (E : Env) (st : DB) (pr : Proposal) (proposal_id : string)
    (signed_at file_path : option string) : DB :=
  let contract := promoted_contract E pr signed_at file_path in
  let tasks := proposal_tasks_of st proposal_id in
  let st1 := set_contracts (contracts st ++ [contract]) st in
  let st2 := set_contract_tasks
               (contract_tasks st1 ++ ctask_rows E (c_id contract) 1 tasks) st1 in
  let st3 := set_proposals
               (map (fun p => if String.eqb (pr_id p) proposal_id
                              then set_proposal_status p "accepted" (env_now E) else p)
                    (proposals st2)) st2 in
  let st4 := set_projects
               (map (fun p => if String.eqb (p_id p) (pr_project_id pr)
                              then set_project_status p "contract" (env_now E) else p)
                    (projects st3)) st3 in
  set_activity_log
    (activity_log st4 ++
     [{| act_id := "act-" ++ env_hex E (S (length tasks)); act_action := "promoted";
         act_entity_type := "proposal"; act_entity_id := proposal_id;
         act_project_id := Some (pr_project_id pr) |}]) st4.

(** ** [app/routers/contracts.py]: contracts and contract tasks *)

(** [SELECT COALESCE(SUM(amount), 0) FROM contract_tasks WHERE contract_id = %s]. *)
Definition contract_tasks_total (st : DB) (contract_id : string) : Q :=
  sumQ (map ct_amount (filter (fun t => String.eqb (ct_contract_id t) contract_id)
                              (contract_tasks st))).

(** [SELECT COALESCE(MAX(sort_order), 0) FROM contract_tasks WHERE contract_id = %s]. *)
Definition contract_tasks_max_order (st : DB) (contract_id : string) : nat :=
  fold_left Nat.max
    (map ct_sort_order (filter (fun t => String.eqb (ct_contract_id t) contract_id)
                               (contract_tasks st))) 0.

Definition set_contract_total (c : Contract) (total : Q) (now : Timestamp) : Contract :=
  {| c_id := c_id c; c_project_id := c_project_id c; c_total_amount := total;
     c_signed_at := c_signed_at c; c_file_path := c_file_path c;
     c_created_at := c_created_at c; c_updated_at := now; c_deleted_at := c_deleted_at c |}.

Definition _update_contract_total (E : Env) (contract_id : string) : M unit :=
  st <- get ;;
  let total := contract_tasks_total st contract_id in
  modify (fun st => set_contracts
            (map (fun c => if String.eqb (c_id c) contract_id
                           then set_contract_total c total (env_now E) else c)
                 (contracts st)) st).

Record ContractTaskCreate := mkContractTaskCreate {
  ctc_name : string;
  ctc_description : option string;
  ctc_amount : Q
}.

(** [billed_amount] and [billed_percent] are not written by this insert;
    they take the columns' defaults, 0 here ([get_contract] recomputes
    both on every read). *)
Definition add_contract_task (E : Env) (contract_id : string) (data : ContractTaskCreate)
  : M ContractView :=
  st0 <- get ;;
  match find_active_contract st0 contract_id with
  | None => raise (HTTPException 404 "Contract not found")
  | Some _ =>
      let now := env_now E in
      task_id <- generate_id E "ctask-" ;;
      st1 <- get ;;
      let max_order := contract_tasks_max_order st1 contract_id in
      let row := {| ct_id := task_id; ct_contract_id := contract_id;
                    ct_sort_order := max_order + 1; ct_name := ctc_name data;
                    ct_description := ctc_description data; ct_amount := ctc_amount data;
                    ct_billed_amount := 0%Q; ct_billed_percent := 0%Q;
                    ct_created_at := now; ct_updated_at := now |} in
      modify (fun st => set_contract_tasks (contract_tasks st ++ [row]) st) ;;;
      _update_contract_total E contract_id ;;;
      commit ;;;
      get_contract contract_id
  end.

(** [ContractTaskUpdate]: [None] is a field left at [None]. *)
Record ContractTaskUpdate := mkContractTaskUpdate {
  ctu_name : option string;
  ctu_description : option string;
  ctu_amount : option Q
}.

Definition no_task_updates (data : ContractTaskUpdate) : bool :=
  is_none (ctu_name data) && is_none (ctu_description data) && is_none (ctu_amount data).

(** [UPDATE contract_tasks SET <updates>, updated_at = %s WHERE id = %s] on one row. *)
Definition apply_contract_task_update (data : ContractTaskUpdate) (now : Timestamp)
    (t : ContractTask) : ContractTask :=
  {| ct_id := ct_id t; ct_contract_id := ct_contract_id t; ct_sort_order := ct_sort_order t;
     ct_name := default (ct_name t) (ctu_name data);
     ct_description := opt_or (ctu_description data) (ct_description t);
     ct_amount := default (ct_amount t) (ctu_amount data);
     ct_billed_amount := ct_billed_amount t; ct_billed_percent := ct_billed_percent t;
     ct_created_at := ct_created_at t; ct_updated_at := now |}.

Definition update_contract_task (E : Env) (contract_id task_id : string)
    (data : ContractTaskUpdate) : M ContractView :=
  st0 <- get ;;
  match find_contract_task st0 task_id contract_id with
  | None => raise (HTTPException 404 "Task not found")
  | Some _ =>
      if no_task_updates data then get_contract contract_id
      else
        modify (fun st => set_contract_tasks
                  (map (fun t => if String.eqb (ct_id t) task_id
                                 then apply_contract_task_update data (env_now E) t else t)
                       (contract_tasks st)) st) ;;;
        _update_contract_total E contract_id ;;;
        commit ;;;
        get_contract contract_id
  end.

Definition delete_contract_task (E : Env) (contract_id task_id : string) : M unit :=
  st0 <- get ;;
  match find_contract_task st0 task_id contract_id with
  | None => raise (HTTPException 404 "Task not found")
  | Some _ =>
      modify (fun st => set_contract_tasks
                (filter (fun t => negb (String.eqb (ct_id t) task_id)) (contract_tasks st)) st) ;;;
      _update_contract_total E contract_id ;;;
      commit
  end.

Definition set_contract_deleted (c : Contract) (now : Timestamp) : Contract :=
  {| c_id := c_id c; c_project_id := c_project_id c; c_total_amount := c_total_amount c;
     c_signed_at := c_signed_at c; c_file_path := c_file_path c;
     c_created_at := c_created_at c; c_updated_at := c_updated_at c;
     c_deleted_at := Some now |}.

Definition delete_contract (E : Env) (contract_id : string) : M unit :=
  st0 <- get ;;
  match find_active_contract st0 contract_id with
  | None => raise (HTTPException 404 "Contract not found")
  | Some _ =>
      modify (fun st => set_contracts
                (map (fun c => if String.eqb (c_id c) contract_id
                               then set_contract_deleted c (env_now E) else c)
                     (contracts st)) st) ;;;
      commit
  end.

(** One entry of [data.tasks : list[dict]] of [ContractCreate] and
    [ContractUpdate]; [None] is a key the dict lacks. *)
Record TaskDict := mkTaskDict {
  td_name : option string;
  td_description : option string;
  td_amount : option Q;
  td_billed_amount : option Q;
  td_billed_percent : option Q
}.

(** [task["name"]]. *)
Definition task_name (t : TaskDict) : M string :=
  match td_name t with Some n => ret n | None => raise (KeyError "name") end.

(** [for i, task in enumerate(data.tasks): INSERT INTO contract_tasks ...];
    [billed] gives the billed columns of the row. *)
Fixpoint insert_contract_tasks (E : Env) (contract_id : string) (i : nat)
    (tasks : list TaskDict) (billed : TaskDict -> Q * Q) (now : Timestamp) : M unit :=
  match tasks with
  | [] => ret tt
  | task :: rest =>
      task_id <- generate_id E "ctask-" ;;
      name <- task_name task ;;
      let row := {| ct_id := task_id; ct_contract_id := contract_id; ct_sort_order := S i;
                    ct_name := name; ct_description := td_description task;
                    ct_amount := default 0%Q (td_amount task);
                    ct_billed_amount := fst (billed task);
                    ct_billed_percent := snd (billed task);
                    ct_created_at := now; ct_updated_at := now |} in
      modify (fun st => set_contract_tasks (contract_tasks st ++ [row]) st) ;;;
      insert_contract_tasks E contract_id (S i) rest billed now
  end.

(** [ContractCreate]; [notes] and [dropbox_url] have no column in this
    model of [contracts] and change nothing below. *)
Record ContractCreate := mkContractCreate {
  ccr_project_id : string;
  ccr_total_amount : Q;
  ccr_signed_at : option string;
  ccr_file_path : option string;
  ccr_tasks : option (list TaskDict)
}.

Definition find_active_project (st : DB) (project_id : string) : option Project :=
  find (fun p => String.eqb (p_id p) project_id && is_none (p_deleted_at p)) (projects st).

(** [if data.tasks:] *)
Definition nonempty_tasks {A} (tasks : option (list A)) : option (list A) :=
  match tasks with Some (_ :: _) => tasks | _ => None end.

Definition create_contract (E : Env) (data : ContractCreate) : M ContractView :=
  st0 <- get ;;
  match find_active_project st0 (ccr_project_id data) with
  | None => raise (HTTPException 404 "Project not found")
  | Some _ =>
      let now := env_now E in
      contract_id <- generate_id E "con-" ;;
      let total := match nonempty_tasks (ccr_tasks data) with
                   | Some tasks => sumQ (map (fun t => default 0%Q (td_amount t)) tasks)
                   | None => ccr_total_amount data
                   end in
      let row := {| c_id := contract_id; c_project_id := ccr_project_id data;
                    c_total_amount := total; c_signed_at := ccr_signed_at data;
                    c_file_path := ccr_file_path data; c_created_at := now;
                    c_updated_at := now; c_deleted_at := None |} in
      modify (fun st => set_contracts (contracts st ++ [row]) st) ;;;
      match nonempty_tasks (ccr_tasks data) with
      | Some tasks => insert_contract_tasks E contract_id 0 tasks (fun _ => (0%Q, 0%Q)) now
      | None => ret tt
      end ;;;
      commit ;;;
      get_contract contract_id
  end.

(** [ContractUpdate]; [notes] has no column in this model of [contracts]:
    it only counts as one of the [field_updates]. *)
Record ContractUpdate := mkContractUpdate {
  cu_signed_at : option string;
  cu_file_path : option string;
  cu_notes : option string;
  cu_tasks : option (list TaskDict)
}.

Definition apply_contract_update (data : ContractUpdate) (now : Timestamp) (c : Contract)
  : Contract :=
  {| c_id := c_id c; c_project_id := c_project_id c; c_total_amount := c_total_amount c;
     c_signed_at := opt_or (cu_signed_at data) (c_signed_at c);
     c_file_path := opt_or (cu_file_path data) (c_file_path c);
     c_created_at := c_created_at c; c_updated_at := now; c_deleted_at := c_deleted_at c |}.

Definition update_contract (E : Env) (contract_id : string) (data : ContractUpdate)
  : M ContractView :=
  st0 <- get ;;
  match find_active_contract st0 contract_id with
  | None => raise (HTTPException 404 "Contract not found")
  | Some _ =>
      let now := env_now E in
      (if is_none (cu_signed_at data) && is_none (cu_file_path data) && is_none (cu_notes data)
       then ret tt
       else modify (fun st => set_contracts
                      (map (fun c => if String.eqb (c_id c) contract_id
                                     then apply_contract_update data now c else c)
                           (contracts st)) st)) ;;;
      match cu_tasks data with
      | None => ret tt
      | Some tasks =>
          modify (fun st => set_contract_tasks
                    (filter (fun t => negb (String.eqb (ct_contract_id t) contract_id))
                            (contract_tasks st)) st) ;;;
          insert_contract_tasks E contract_id 0 tasks
            (fun t => (default 0%Q (td_billed_amount t), default 0%Q (td_billed_percent t))) now ;;;
          _update_contract_total E contract_id
      end ;;;
      commit ;;;
      get_contract contract_id
  end.

(** ** [app/routers/proposals.py]: proposals and proposal tasks *)

Definition set_proposal_tasks (l : list ProposalTask) (st : DB) : DB :=
  {| projects := projects st; contracts := contracts st;
     contract_tasks := contract_tasks st; proposals := proposals st;
     proposal_tasks := l; invoices := invoices st;
     invoice_line_items := invoice_line_items st;
     activity_log := activity_log st |}.

(** [SELECT COALESCE(SUM(amount), 0) FROM proposal_tasks WHERE proposal_id = %s]. *)
Definition proposal_tasks_total (st : DB) (proposal_id : string) : Q :=
  sumQ (map pt_amount (filter (fun t => String.eqb (pt_proposal_id t) proposal_id)
                              (proposal_tasks st))).

Definition proposal_tasks_max_order (st : DB) (proposal_id : string) : nat :=
  fold_left Nat.max
    (map pt_sort_order (filter (fun t => String.eqb (pt_proposal_id t) proposal_id)
                               (proposal_tasks st))) 0.

Definition set_proposal_total (p : Proposal) (total : Q) (now : Timestamp) : Proposal :=
  {| pr_id := pr_id p; pr_project_id := pr_project_id p; pr_total_fee := total;
     pr_status := pr_status p; pr_updated_at := Some now; pr_deleted_at := pr_deleted_at p |}.

Definition _update_proposal_total (E : Env) (proposal_id : string) : M unit :=
  st <- get ;;
  let total := proposal_tasks_total st proposal_id in
  modify (fun st => set_proposals
            (map (fun p => if String.eqb (pr_id p) proposal_id
                           then set_proposal_total p total (env_now E) else p)
                 (proposals st)) st).

(** The proposal and its tasks ordered by [sort_order]. *)
Definition _get_proposal_with_tasks (proposal_id : string) : M (Proposal * list ProposalTask) :=
  proposal <- _get_proposal_dict proposal_id ;;
  st <- get ;;
  ret (proposal, proposal_tasks_of st proposal_id).

Record ProposalTaskCreate := mkProposalTaskCreate {
  ptc_name : string;
  ptc_description : option string;
  ptc_amount : Q
}.

Definition add_proposal_task (E : Env) (proposal_id : string) (data : ProposalTaskCreate)
  : M (Proposal * list ProposalTask) :=
  _ <- _get_proposal_dict proposal_id ;;
  task_id <- generate_id E "ptask-" ;;
  st1 <- get ;;
  let max_order := proposal_tasks_max_order st1 proposal_id in
  let row := {| pt_id := task_id; pt_proposal_id := proposal_id;
                pt_sort_order := max_order + 1; pt_name := ptc_name data;
                pt_description := ptc_description data; pt_amount := ptc_amount data |} in
  modify (fun st => set_proposal_tasks (proposal_tasks st ++ [row]) st) ;;;
  _update_proposal_total E proposal_id ;;;
  commit ;;;
  _get_proposal_with_tasks proposal_id.
(** [ProposalTaskUpdate]: [None] is a field left at [None]. *)
Record ProposalTaskUpdate := mkProposalTaskUpdate {
  ptu_name : option string;
  ptu_description : option string;
  ptu_amount : option Q;
  ptu_sort_order : option nat
}.

Definition no_proposal_task_updates (data : ProposalTaskUpdate) : bool :=
  is_none (ptu_name data) && is_none (ptu_description data)
  && is_none (ptu_amount data) && is_none (ptu_sort_order data).

Definition apply_proposal_task_update (data : ProposalTaskUpdate) (t : ProposalTask)
  : ProposalTask :=
  {| pt_id := pt_id t; pt_proposal_id := pt_proposal_id t;
     pt_sort_order := default (pt_sort_order t) (ptu_sort_order data);
     pt_name := default (pt_name t) (ptu_name data);
     pt_description := opt_or (ptu_description data) (pt_description t);
     pt_amount := default (pt_amount t) (ptu_amount data) |}.

Definition find_proposal_task (st : DB) (task_id proposal_id : string) : option ProposalTask :=
  find (fun t => String.eqb (pt_id t) task_id && String.eqb (pt_proposal_id t) proposal_id)
       (proposal_tasks st).

Definition update_proposal_task (E : Env) (proposal_id task_id : string)
    (data : ProposalTaskUpdate) : M (Proposal * list ProposalTask) :=
  st0 <- get ;;
  match find_proposal_task st0 task_id proposal_id with
  | None => raise (HTTPException 404 "Task not found")
  | Some _ =>
      if no_proposal_task_updates data then _get_proposal_with_tasks proposal_id
      else
        modify (fun st => set_proposal_tasks
                  (map (fun t => if String.eqb (pt_id t) task_id
                                 then apply_proposal_task_update data t else t)
                       (proposal_tasks st)) st) ;;;
        _update_proposal_total E proposal_id ;;;
        commit ;;;
        _get_proposal_with_tasks proposal_id
  end.

Definition delete_proposal_task (E : Env) (proposal_id task_id : string) : M unit :=
  st0 <- get ;;
  match find_proposal_task st0 task_id proposal_id with
  | None => raise (HTTPException 404 "Task not found")
  | Some _ =>
      modify (fun st => set_proposal_tasks
                (filter (fun t => negb (String.eqb (pt_id t) task_id)) (proposal_tasks st)) st) ;;;
      _update_proposal_total E proposal_id ;;;
      commit
  end.

Definition set_proposal_deleted (p : Proposal) (now : Timestamp) : Proposal :=
  {| pr_id := pr_id p; pr_project_id := pr_project_id p; pr_total_fee := pr_total_fee p;
     pr_status := pr_status p; pr_updated_at := pr_updated_at p; pr_deleted_at := Some now |}.

Definition delete_proposal (E : Env) (proposal_id : string) : M unit :=
  st0 <- get ;;
  match find_active_proposal st0 proposal_id with
  | None => raise (HTTPException 404 "Proposal not found")
  | Some existing =>
      modify (fun st => set_proposals
                (map (fun p => if String.eqb (pr_id p) proposal_id
                               then set_proposal_deleted p (env_now E) else p)
                     (proposals st)) st) ;;;
      log_activity E "deleted" "proposal" proposal_id (Some (pr_project_id existing)) ;;;
      commit
  end.

(** [ProposalUpdate]; [None] is a field left at [None].  Only [total_fee]
    and [status] have a column in this model of [proposals]; the other
    fields only decide whether [updates] is empty. *)
Record ProposalUpdate := mkProposalUpdate {
  pu_client_company : option string;
  pu_client_contact_email : option string;
  pu_total_fee : option Q;
  pu_engineer_key : option string;
  pu_engineer_name : option string;
  pu_engineer_title : option string;
  pu_contact_method : option string;
  pu_proposal_date : option string;
  pu_status : option string;
  pu_sent_at : option string;
  pu_data_path : option string;
  pu_pdf_path : option string
}.

(** [not updates]. *)
Definition no_proposal_updates (data : ProposalUpdate) : bool :=
  is_none (pu_client_company data) && is_none (pu_client_contact_email data)
  && is_none (pu_total_fee data) && is_none (pu_engineer_key data)
  && is_none (pu_engineer_name data) && is_none (pu_engineer_title data)
  && is_none (pu_contact_method data) && is_none (pu_proposal_date data)
  && is_none (pu_status data) && is_none (pu_sent_at data)
  && is_none (pu_data_path data) && is_none (pu_pdf_path data).

(** [UPDATE proposals SET <updates>, updated_at = %s WHERE id = %s] on one row. *)
Definition apply_proposal_update (data : ProposalUpdate) (now : Timestamp) (p : Proposal)
  : Proposal :=
  {| pr_id := pr_id p; pr_project_id := pr_project_id p;
     pr_total_fee := default (pr_total_fee p) (pu_total_fee data);
     pr_status := default (pr_status p) (pu_status data);
     pr_updated_at := Some now; pr_deleted_at := pr_deleted_at p |}.

Definition update_proposal (E : Env) (proposal_id : string) (data : ProposalUpdate)
  : M (Proposal * list ProposalTask) :=
  st0 <- get ;;
  match find_active_proposal st0 proposal_id with
  | None => raise (HTTPException 404 "Proposal not found")
  | Some _ =>
      if no_proposal_updates data then _get_proposal_with_tasks proposal_id
      else
        modify (fun st => set_proposals
                  (map (fun p => if String.eqb (pr_id p) proposal_id
                                 then apply_proposal_update data (env_now E) p else p)
                       (proposals st)) st) ;;;
        commit ;;;
        _get_proposal_with_tasks proposal_id
  end.

(** [ProposalCreate]; the client, engineer, date and path fields have no
    column in this model of [proposals] and change nothing below. *)
Record ProposalCreate := mkProposalCreate {
  pc_project_id : string;
  pc_total_fee : Q;
  pc_status : string;
  pc_tasks : option (list ProposalTaskCreate)
}.

(** [for i, task in enumerate(data.tasks): INSERT INTO proposal_tasks ...] *)
Fixpoint insert_proposal_tasks (E : Env) (proposal_id : string) (i : nat)
    (tasks : list ProposalTaskCreate) : M unit :=
  match tasks with
  | [] => ret tt
  | task :: rest =>
      task_id <- generate_id E "ptask-" ;;
      let row := {| pt_id := task_id; pt_proposal_id := proposal_id; pt_sort_order := S i;
                    pt_name := ptc_name task; pt_description := ptc_description task;
                    pt_amount := ptc_amount task |} in
      modify (fun st => set_proposal_tasks (proposal_tasks st ++ [row]) st) ;;;
      insert_proposal_tasks E proposal_id (S i) rest
  end.

Definition create_proposal (E : Env) (data : ProposalCreate)
  : M (Proposal * list ProposalTask) :=
  st0 <- get ;;
  match find_active_project st0 (pc_project_id data) with
  | None => raise (HTTPException 404 "Project not found")
  | Some _ =>
      let now := env_now E in
      proposal_id <- generate_id E "prop-" ;;
      let total_fee := match nonempty_tasks (pc_tasks data) with
                       | Some tasks => if Qeq_bool (pc_total_fee data) 0
                                       then sumQ (map ptc_amount tasks)
                                       else pc_total_fee data
                       | None => pc_total_fee data
                       end in
      let row := {| pr_id := proposal_id; pr_project_id := pc_project_id data;
                    pr_total_fee := total_fee; pr_status := pc_status data;
                    pr_updated_at := Some now; pr_deleted_at := None |} in
      modify (fun st => set_proposals (proposals st ++ [row]) st) ;;;
      match nonempty_tasks (pc_tasks data) with
      | Some tasks => insert_proposal_tasks E proposal_id 0 tasks
      | None => ret tt
      end ;;;
      commit ;;;
      _get_proposal_with_tasks proposal_id
  end.

(** The rows [insert_contract_tasks] inserts when every task has a
    [name], the [draws]-th random id first. *)
Fixpoint task_dict_rows (E : Env) (contract_id : string) (i draws : nat)
    (tasks : list TaskDict) (billed : TaskDict -> Q * Q) (now : Timestamp)
  : list ContractTask :=
  match tasks with
  | [] => []
  | task :: rest =>
      {| ct_id := "ctask-" ++ env_hex E draws; ct_contract_id := contract_id;
         ct_sort_order := S i; ct_name := default "" (td_name task);
         ct_description := td_description task;
         ct_amount := default 0%Q (td_amount task);
         ct_billed_amount := fst (billed task); ct_billed_percent := snd (billed task);
         ct_created_at := now; ct_updated_at := now |}
      :: task_dict_rows E contract_id (S i) (S draws) rest billed now
  end.

(** The rows [insert_proposal_tasks] inserts. *)
Fixpoint proposal_task_rows (E : Env) (proposal_id : string) (i draws : nat)
    (tasks : list ProposalTaskCreate) : list ProposalTask :=
  match tasks with
  | [] => []
  | task :: rest =>
      {| pt_id := "ptask-" ++ env_hex E draws; pt_proposal_id := proposal_id;
         pt_sort_order := S i; pt_name := ptc_name task;
         pt_description := ptc_description task; pt_amount := ptc_amount task |}
      :: proposal_task_rows E proposal_id (S i) (S draws) rest
  end.

(** ** [app/routers/invoices.py]: reading an invoice *)

Definition get_invoice (invoice_id : string) : M (Invoice * list LineItem) :=
  st <- get ;;
  match find_active_invoice st invoice_id with
  | None => raise (HTTPException 404 "Invoice not found")
  | Some invoice => ret (invoice, line_items_of st invoice_id)
  end.

Definition get_invoice_by_number (invoice_number : string) : M (Invoice * list LineItem) :=
  st <- get ;;
  match find (fun i => opt_str_eqb (i_invoice_number i) invoice_number
                       && is_none (i_deleted_at i)) (invoices st) with
  | None => raise (HTTPException 404 "Invoice not found")
  | Some invoice => ret (invoice, line_items_of st (i_id invoice))
  end.

(** ** Parsing Google ids out of stored URLs *)

(** [s] without the leading [p], if [s] starts with [p]. *)
Fixpoint strip_prefix (p s : string) : option string :=
  match p, s with
  | EmptyString, _ => Some s
  | String a p', String b s' => if Ascii.eqb a b then strip_prefix p' s' else None
  | String _ _, EmptyString => None
  end.

(** [s.split(sep)] for a non-empty [sep]: the pieces between the
    non-overlapping occurrences of [sep], scanned from the left; [cur] is
    the piece read so far.  Each step reads at least one character, so
    [S (String.length s)] steps suffice. *)
Fixpoint split_go (fuel : nat) (sep s cur : string) : list string :=
  match fuel with
  | 0 => [cur ++ s]
  | S f =>
      match s with
      | EmptyString => [cur]
      | String c rest =>
          match strip_prefix sep s with
          | Some after => cur :: split_go f sep after ""
          | None => split_go f sep rest (cur ++ String c EmptyString)
          end
      end
  end.

Definition py_split (sep s : string) : list string := split_go (S (String.length s)) sep s "".

(** [app/routers/proposals.py]: [_extract_google_doc_id]. *)
Definition _extract_google_doc_id (url : string) : option string :=
  if negb (py_truthy url) then None else
  match py_split "/d/" url with
  | _ :: part1 :: _ =>
      let doc_id := hd "" (py_split "/" part1) in
      if py_truthy doc_id then Some doc_id else None
  | _ => None
  end.

(** The character class [[a-zA-Z0-9_-]]. *)
Definition is_id_char (c : ascii) : bool :=
  let n := nat_of_ascii c in
  (Nat.leb 97 n && Nat.leb n 122) || (Nat.leb 65 n && Nat.leb n 90) ||
  (Nat.leb 48 n && Nat.leb n 57) || Ascii.eqb c "_" || Ascii.eqb c "-".

(** The longest prefix of [s] in [[a-zA-Z0-9_-]]: what the greedy
    [([a-zA-Z0-9_-]+)] consumes. *)
Fixpoint id_run (s : string) : string :=
  match s with
  | String c rest => if is_id_char c then String c (id_run rest) else EmptyString
  | EmptyString => EmptyString
  end.

(** [re.search(r"/spreadsheets/d/([a-zA-Z0-9_-]+)", s)]: group 1 of the
    leftmost match. *)
Fixpoint search_spreadsheet_id (s : string) : option string :=
  match s with
  | EmptyString => None
  | String _ rest =>
      match strip_prefix "/spreadsheets/d/" s with
      | Some after =>
          let g := id_run after in
          if py_truthy g then Some g else search_spreadsheet_id rest
      | None => search_spreadsheet_id rest
      end
  end.

(** [app/routers/invoices.py]: [_extract_spreadsheet_id]. *)
Definition _extract_spreadsheet_id (data_path : string) : Result string :=
  if negb (py_truthy data_path) then Raise (ValueError "No sheet URL stored for this invoice")
  else match search_spreadsheet_id data_path with
       | Some g => Ok g
       | None => Ok data_path
       end.

(** [s] has no ['/']. *)
Definition no_slash (s : string) : Prop :=
  Forall (fun c => c <> "/"%char) (list_ascii_of_string s).

(** ** Sample stores *)

Definition demo_env : Env :=
  mkEnv 100 "2026-01-01T00:00:00"
        (fun n => match n with
                  | 0 => "0000000a" | 1 => "0000000b" | 2 => "0000000c"
                  | 3 => "0000000d" | _ => "0000000e"
                  end).

(** A project with a contract task "Design" of 10000, billed 50% by a
    sent invoice whose line item is [{amount: 5000, previous_billing: 0}],
    a deleted invoice that billed 20%, a draft invoice and a sent list
    invoice without line items. *)
Definition demo_project : Project :=
  mkProject "P1" (Some "PROJ") None "contract" (Some "inv-1") None None.
Definition demo_contract : Contract :=
  mkContract "con-1" "P1" 10000 None None 1 1 None.
Definition demo_task : ContractTask :=
  mkContractTask "ct-1" "con-1" 1 "Design" None 10000 0 0 1 1.
Definition demo_invoice : Invoice :=
  mkInvoice "inv-1" (Some "PROJ-2") "P1" (Some "con-1") None "task" 5000
            "sent" "unpaid" (Some 5) None None None None 5 5 None.
Definition demo_deleted_invoice : Invoice :=
  mkInvoice "inv-0" (Some "PROJ-1") "P1" (Some "con-1") None "task" 2000
            "unsent" "unpaid" None None None None None 3 3 (Some 4).
(** A draft invoice, and a sent list invoice without line items. *)
Definition demo_draft_invoice : Invoice :=
  mkInvoice "inv-2" (Some "PROJ-3") "P1" (Some "con-1") (Some "inv-1") "task" 0
            "unsent" "unpaid" None None None None None 6 6 None.
Definition demo_empty_invoice : Invoice :=
  mkInvoice "inv-3" (Some "PROJ-4") "P1" None None "list" 100
            "sent" "unpaid" (Some 7) None None None None 7 7 None.
Definition demo_line_item : LineItem :=
  mkLineItem "li-1" "inv-1" 1 "Design" None 50 10000 5000 0 5.
Definition demo_deleted_line_item : LineItem :=
  mkLineItem "li-0" "inv-0" 1 "Design" None 20 10000 2000 0 3.

(** The store of the repository's test [test_invoice_number_survives_deletion]:
    project TEST01 seeded without [job_code] and [project_number]. *)
Definition test_project : Project :=
  mkProject "TEST01" None None "contract" None None None.
Definition test_db : DB := mkDB [test_project] [] [] [] [] [] [] [].

(** The store of the repository's test
    [test_google_sheet_file_not_found_handled_gracefully]: contract
    con-test1 of TEST01 with one task "Design" of 1000. *)
Definition test_contract : Contract :=
  mkContract "con-test1" "TEST01" 1000 None None 1 1 None.
Definition test_contract_task : ContractTask :=
  mkContractTask "ct-1" "con-test1" 1 "Design" None 1000 0 0 1 1.
Definition test_contract_db : DB :=
  mkDB [test_project] [test_contract] [test_contract_task] [] [] [] [] [].

(** Its request body [{"tasks": [{"task_id": "ct-1", "percent_this_invoice": 50}]}]. *)
Definition test_invoice_request : InvoiceFromContract :=
  mkInvoiceFromContract [mkTaskSpec "ct-1" 50] None None false.

(** A soft-deleted contract con-9 of P1 with one task ct-9 of 400. *)
Definition demo_deleted_contract : Contract :=
  mkContract "con-9" "P1" 400 None None 1 1 (Some 2).
Definition demo_deleted_contract_task : ContractTask :=
  mkContractTask "ct-9" "con-9" 1 "Survey" None 400 0 0 1 1.

(** A proposal with two tasks (300 and 700) and one without tasks. *)
Definition demo_proposal : Proposal := mkProposal "pr-1" "P1" 1000 "sent" None None.
Definition demo_empty_proposal : Proposal := mkProposal "pr-0" "P1" 0 "draft" None None.
Definition demo_proposal_tasks : list ProposalTask :=
  [mkProposalTask "pt-b" "pr-1" 2 "Design" None 700;
   mkProposalTask "pt-a" "pr-1" 1 "Survey" (Some "site survey") 300].

Definition demo_db : DB :=
  mkDB [demo_project] [demo_contract] [demo_task]
       [demo_proposal; demo_empty_proposal] demo_proposal_tasks
       [demo_deleted_invoice; demo_invoice; demo_draft_invoice; demo_empty_invoice]
       [demo_deleted_line_item; demo_line_item] [].

(** [demo_db] with the soft-deleted contract con-9 and its task. *)
Definition demo_contracts_db : DB :=
  set_contract_tasks (contract_tasks demo_db ++ [demo_deleted_contract_task])
    (set_contracts (contracts demo_db ++ [demo_deleted_contract]) demo_db).

(** A task PATCH that sets the amount to 500. *)
Definition demo_task_update : ContractTaskUpdate := mkContractTaskUpdate None None (Some 500%Q).

(** Contract bodies for project P1: two named tasks (300, and one with no
    [amount]) with a stated total of 999, and one task without a [name]. *)
Definition demo_task_dicts : list TaskDict :=
  [mkTaskDict (Some "Survey") None (Some 300%Q) None None;
   mkTaskDict (Some "Design") (Some "layout") None None None].
Definition demo_contract_create : ContractCreate :=
  mkContractCreate "P1" 999 None None (Some demo_task_dicts).
Definition demo_bad_task_dicts : list TaskDict :=
  [mkTaskDict (Some "Survey") None (Some 300%Q) None None;
   mkTaskDict None None (Some 700%Q) None None].
Definition demo_bad_contract_create : ContractCreate :=
  mkContractCreate "P1" 0 None None (Some demo_bad_task_dicts).
Definition demo_contract_update : ContractUpdate :=
  mkContractUpdate (Some "2026-02-01") None None (Some demo_task_dicts).

(** [demo_db] with a soft-deleted proposal pr-9 and its task pt-9 of 100,
    and a task PATCH that sets an amount of 250. *)
Definition demo_deleted_proposal : Proposal := mkProposal "pr-9" "P1" 100 "draft" None (Some 2).
Definition demo_deleted_proposal_task : ProposalTask :=
  mkProposalTask "pt-9" "pr-9" 1 "Survey" None 100.
Definition demo_proposals_db : DB :=
  set_proposal_tasks (proposal_tasks demo_db ++ [demo_deleted_proposal_task])
    (set_proposals (proposals demo_db ++ [demo_deleted_proposal]) demo_db).
Definition demo_proposal_task_update : ProposalTaskUpdate :=
  mkProposalTaskUpdate None None (Some 250%Q) None.

(** A PATCH that sets [total_fee] to 1500, and a new task of 50. *)
Definition demo_fee_patch : ProposalUpdate :=
  mkProposalUpdate None None (Some 1500%Q) None None None None None None None None None.
Definition demo_new_proposal_task : ProposalTaskCreate := mkProposalTaskCreate "Permits" None 50.

(** A proposal body for P1 with a stated fee of 500 and tasks of 300 and
    700. *)
Definition demo_proposal_create : ProposalCreate :=
  mkProposalCreate "P1" 500 "draft"
    (Some [mkProposalTaskCreate "Survey" None 300; mkProposalTaskCreate "Design" None 700]).

(** [demo_db] with a second line item "Survey" of 300 on inv-1. *)
Definition demo_second_line_item : LineItem :=
  mkLineItem "li-2" "inv-1" 2 "Survey" None 100 300 300 0 5.
Definition demo_two_items_db : DB :=
  set_line_items (invoice_line_items demo_db ++ [demo_second_line_item]) demo_db.

(** A PATCH body that edits the quantity of the first line item only. *)
Definition demo_patch : InvoiceUpdate :=
  mkInvoiceUpdate None None None None None None None
                  (Some [mkLineItemPatch (Some 60%Q) None None]).

(** The rows [insert_line_items] inserts, the [draws]-th random id first. *)
Fixpoint draft_rows (E : Env) (inv_id : string) (i draws : nat) (lds : list LineDraft)
    (now : Timestamp) : list LineItem :=
  match lds with
  | [] => []
  | ld :: rest =>
      {| li_id := "li-" ++ env_hex E draws; li_invoice_id := inv_id; li_sort_order := S i;
         li_name := ld_name ld; li_description := ld_description ld;
         li_quantity := ld_quantity ld; li_unit_price := ld_unit_price ld;
         li_amount := ld_amount ld; li_previous_billing := ld_previous_billing ld;
         li_created_at := now |} :: draft_rows E inv_id (S i) (S draws) rest now
  end.

(** ** Lemmas on the helpers *)

Lemma fold_left_Qplus_acc : forall l a,
  (fold_left Qplus l a == a + fold_left Qplus l 0)%Q.
Proof.
  induction l as [|x l IH]; intros a; simpl.
  - ring.
  - rewrite (IH (a + x)%Q), (IH (0 + x)%Q). ring.
Qed.

Lemma sumQ_cons : forall x l, (sumQ (x :: l) == x + sumQ l)%Q.
Proof.
  intros x l. unfold sumQ. simpl. rewrite fold_left_Qplus_acc. ring.
Qed.

Lemma dict_get_group_add : forall g n a k,
  (dict_get (group_add n a g) k 0 ==
   dict_get g k 0 + (if String.eqb n k then a else 0))%Q.
Proof.
  induction g as [|[n' t] g IH]; intros n a k; simpl.
  - destruct (String.eqb n k); ring.
  - destruct (String.eqb n' n) eqn:Hn'n.
    + apply String.eqb_eq in Hn'n. subst n'. simpl.
      destruct (String.eqb n k); ring.
    + simpl. destruct (String.eqb n' k) eqn:Hn'k.
      * apply String.eqb_eq in Hn'k. subst k.
        rewrite String.eqb_sym, Hn'n. ring.
      * apply IH.
Qed.

Lemma dict_get_group_sum : forall rows g k,
  (dict_get (fold_left (fun g li => group_add (li_name li) (li_amount li) g) rows g) k 0 ==
   dict_get g k 0 + sumQ (map li_amount (filter (fun li => String.eqb (li_name li) k) rows)))%Q.
Proof.
  induction rows as [|r rows IH]; intros g k; simpl.
  - unfold sumQ. simpl. ring.
  - rewrite IH, dict_get_group_add.
    destruct (String.eqb (li_name r) k); simpl.
    + rewrite sumQ_cons. ring.
    + ring.
Qed.

Lemma dict_get_group_sum_by_name : forall rows k,
  (dict_get (group_sum_by_name rows) k 0 ==
   sumQ (map li_amount (filter (fun li => String.eqb (li_name li) k) rows)))%Q.
Proof.
  intros rows k. unfold group_sum_by_name.
  rewrite dict_get_group_sum. simpl. ring.
Qed.

Section SortByFacts.
Context {A : Type} (key : A -> nat).

Lemma In_insert_by : forall x y l, In y (insert_by key x l) <-> y = x \/ In y l.
Proof.
  induction l as [|z l IH]; simpl.
  - intuition (subst; auto).
  - destruct (key x <? key z); simpl; rewrite ?IH; intuition (subst; auto).
Qed.

Lemma In_sort_by : forall y l, In y (sort_by key l) <-> In y l.
Proof.
  induction l as [|x l IH]; simpl.
  - tauto.
  - rewrite In_insert_by, IH. intuition.
Qed.
End SortByFacts.

(** ** C1: billed state computed on read *)

(** C1: reading a contract returns exactly its contract tasks, each with
    [billed_amount] equal to the sum of [amount] over the line items named
    like the task on the contract's non-deleted invoices, and
    [billed_percent = billed_amount / amount * 100], or 0 when the task's
    amount is 0. *)
Theorem get_contract_billed_state : forall st contract_id cv st',
  run_request (get_contract contract_id) st = (Ok cv, st') ->
  (forall t, In t (cv_tasks cv) ->
     (exists t0, In t0 (contract_tasks st) /\ ct_contract_id t0 = contract_id /\
                 ct_id t = ct_id t0 /\ ct_name t = ct_name t0 /\ ct_amount t = ct_amount t0) /\
     (ct_billed_amount t == task_billed_amount st contract_id (ct_name t))%Q /\
     ((ct_amount t == 0)%Q -> (ct_billed_percent t == 0)%Q) /\
     (~ (ct_amount t == 0)%Q ->
      (ct_billed_percent t == task_billed_amount st contract_id (ct_name t) / ct_amount t * 100)%Q)) /\
  (forall t0, In t0 (contract_tasks st) -> ct_contract_id t0 = contract_id ->
     exists t, In t (cv_tasks cv) /\ ct_id t = ct_id t0 /\ ct_name t = ct_name t0 /\
               ct_amount t = ct_amount t0).
Proof.
  intros st contract_id cv st' H.
  unfold run_request, get_contract, bind, get in H. simpl in H.
  destruct (find _ (contracts st)) as [row|]; [|discriminate].
  unfold ret in H. injection H as <- _. simpl.
  split.
  - intros t Ht. unfold _compute_task_billing in Ht.
    apply in_map_iff in Ht as [t0 [<- Ht0]].
    apply In_sort_by, filter_In in Ht0 as [Hin Hc].
    apply String.eqb_eq in Hc.
    assert (Hb : (dict_get (group_sum_by_name (billing_join st contract_id)) (ct_name t0) 0
                  == task_billed_amount st contract_id (ct_name t0))%Q)
      by apply dict_get_group_sum_by_name.
    unfold with_billing; simpl.
    split; [exists t0; auto|]. split; [exact Hb|]. split.
    + intros Hz. apply Qeq_bool_iff in Hz. rewrite Hz. reflexivity.
    + intros Hnz. destruct (Qeq_bool (ct_amount t0) 0) eqn:Hq.
      * apply Qeq_bool_iff in Hq. contradiction.
      * rewrite Hb. reflexivity.
  - intros t0 Hin Hc.
    exists (with_billing t0
              (dict_get (group_sum_by_name (billing_join st contract_id)) (ct_name t0) 0)
              (if Qeq_bool (ct_amount t0) 0 then 0%Q
               else (dict_get (group_sum_by_name (billing_join st contract_id)) (ct_name t0) 0
                     / ct_amount t0 * 100)%Q)).
    split; [|repeat split].
    unfold _compute_task_billing. apply in_map_iff. eexists; split; [reflexivity|].
    apply In_sort_by, filter_In. split; [exact Hin|]. apply String.eqb_eq; exact Hc.
Qed.

Lemma get_contract_billed_state_witness :
  exists cv st', run_request (get_contract "con-1") demo_db = (Ok cv, st') /\
    forall t, In t (cv_tasks cv) ->
      (ct_billed_amount t == task_billed_amount demo_db "con-1" (ct_name t))%Q.
Proof.
  eexists; eexists; split; [vm_compute; reflexivity|].
  intros t Ht.
  exact (proj1 (proj2 (proj1 (get_contract_billed_state demo_db "con-1" _ _ eq_refl) t Ht))).
Defined.

Example demo_design_billed_50 :
  map (fun t => (Qeq_bool (ct_billed_amount t) 5000, Qeq_bool (ct_billed_percent t) 50))
      (cv_tasks (match fst (run_request (get_contract "con-1") demo_db) with
                 | Ok cv => cv | Raise _ => mkContractView demo_contract [] end))
  = [(true, true)].
Proof. vm_compute. reflexivity. Qed.

(** ** The transaction monad on the handlers' loops *)

Lemma set_line_items_twice : forall l1 l2 st,
  set_line_items l2 (set_line_items l1 st) = set_line_items l2 st.
Proof. intros l1 l2 []; reflexivity. Qed.

Lemma insert_line_items_run : forall E inv_id lds i now db c d,
  insert_line_items E inv_id i lds now (mkTx db c d) =
  (Ok (draft_rows E inv_id i d lds now),
   mkTx (set_line_items (invoice_line_items db ++ draft_rows E inv_id i d lds now) db)
        c (d + length lds)).
Proof.
  intros E inv_id lds. induction lds as [|ld lds IH]; intros i now db c d.
  - simpl. rewrite app_nil_r, Nat.add_0_r. destruct db; reflexivity.
  - simpl. unfold bind, generate_id, modify, ret. simpl.
    rewrite IH. simpl. rewrite set_line_items_twice, <- app_assoc.
    replace (d + S (length lds)) with (S d + length lds) by lia.
    reflexivity.
Qed.

Lemma draft_rows_length : forall E inv_id lds i d now,
  length (draft_rows E inv_id i d lds now) = length lds.
Proof. intros E inv_id lds. induction lds; simpl; auto. Qed.

Lemma draft_rows_fields : forall E inv_id lds i d now,
  Forall2 (fun ld row =>
             li_invoice_id row = inv_id /\ li_name row = ld_name ld /\
             li_description row = ld_description ld /\
             li_quantity row = ld_quantity ld /\ li_unit_price row = ld_unit_price ld /\
             li_amount row = ld_amount ld /\ li_previous_billing row = ld_previous_billing ld)
          lds (draft_rows E inv_id i d lds now).
Proof.
  intros E inv_id lds. induction lds as [|ld lds IH]; intros i d now; simpl.
  - constructor.
  - constructor; [repeat split|apply IH].
Qed.

Lemma create_next_invoice_run : forall E st invoice_id,
  run_request (create_next_invoice E invoice_id) st =
  match find_active_invoice st invoice_id with
  | None => (Raise (HTTPException 404 "Invoice not found"), st)
  | Some invoice =>
      if negb (String.eqb (i_sent_status invoice) "sent")
      then (Raise (HTTPException 400 "Invoice must be sent before creating next"), st)
      else
      match line_items_of st invoice_id with
      | [] => (Raise (HTTPException 400 "No line items on current invoice"), st)
      | lis =>
          let new_inv_id := "inv-" ++ env_hex E 0 in
          let inv := new_invoice_row new_inv_id (next_invoice_number st (i_project_id invoice))
                       (i_project_id invoice) (i_contract_id invoice) (Some invoice_id)
                       0%Q (env_now E) in
          let rows := draft_rows E new_inv_id 0 1 (map carry_forward lis) (env_now E) in
          (Ok inv,
           set_projects
             (map (fun p => if String.eqb (p_id p) (i_project_id invoice)
                            then set_current_invoice p (Some new_inv_id) (Some (env_now E))
                            else p) (projects st))
             (set_line_items (invoice_line_items st ++ rows)
                (set_invoices (invoices st ++ [inv]) st)))
      end
  end.
Proof.
  intros E st invoice_id.
  unfold run_request, create_next_invoice, bind, get, raise.
  cbn -[insert_line_items next_invoice_number line_items_of find_active_invoice].
  destruct (find_active_invoice st invoice_id) as [invoice|]; [|reflexivity].
  destruct (negb (String.eqb (i_sent_status invoice) "sent")); [reflexivity|].
  destruct (line_items_of st invoice_id) as [|l ls]; [reflexivity|].
  cbn -[insert_line_items next_invoice_number].
  rewrite insert_line_items_run. reflexivity.
Qed.

Lemma Forall2_map_l : forall {A B C} (R : B -> C -> Prop) (f : A -> B) l1 l2,
  Forall2 R (map f l1) l2 -> Forall2 (fun a c => R (f a) c) l1 l2.
Proof.
  intros A B C R f l1. induction l1 as [|a l1 IH]; intros l2 H; simpl in H.
  - inversion H; constructor.
  - inversion H; subst. constructor; auto.
Qed.

Lemma Forall2_Forall_r : forall {A B} (R : A -> B -> Prop) (P : B -> Prop) l1 l2,
  Forall2 R l1 l2 -> (forall a b, R a b -> P b) -> Forall P l2.
Proof.
  intros A B R P l1 l2 H HP. induction H; constructor; eauto.
Qed.

Lemma or0_eq : forall q, (or0 q == q)%Q.
Proof.
  intros q. unfold or0. destruct (Qeq_bool q 0) eqn:Hq.
  - apply Qeq_bool_iff in Hq. rewrite Hq. reflexivity.
  - reflexivity.
Qed.

(** ** C3: create-next requires a sent invoice *)

(** C3: create-next on an invoice whose [sent_status] is not "sent" raises
    (the 400 "Invoice must be sent before creating next" when the invoice
    is not deleted, NotFound when it is) and the store is left unchanged:
    no invoice row and no line item is written. *)
Theorem create_next_requires_sent : forall E st invoice_id,
  (forall inv, In inv (invoices st) -> i_id inv = invoice_id -> i_sent_status inv <> "sent") ->
  run_request (create_next_invoice E invoice_id) st =
  (Raise (match find_active_invoice st invoice_id with
          | Some _ => HTTPException 400 "Invoice must be sent before creating next"
          | None => HTTPException 404 "Invoice not found"
          end), st).
Proof.
  intros E st invoice_id Hunsent.
  rewrite create_next_invoice_run.
  destruct (find_active_invoice st invoice_id) as [inv|] eqn:Hf; [|reflexivity].
  unfold find_active_invoice in Hf.
  apply find_some in Hf as [Hin Hp].
  apply andb_true_iff in Hp as [Hid _]. apply String.eqb_eq in Hid.
  specialize (Hunsent inv Hin Hid).
  destruct (String.eqb (i_sent_status inv) "sent") eqn:Hs.
  - apply String.eqb_eq in Hs. contradiction.
  - reflexivity.
Qed.

Lemma create_next_requires_sent_witness :
  run_request (create_next_invoice demo_env "inv-2") demo_db =
  (Raise (HTTPException 400 "Invoice must be sent before creating next"), demo_db).
Proof.
  apply (create_next_requires_sent demo_env demo_db "inv-2").
  intros inv Hin Hid. simpl in Hin.
  repeat (destruct Hin as [<-|Hin]; [simpl in *; try discriminate; congruence|]).
  destruct Hin.
Defined.

(** ** C4: create-next carries billing forward *)

(** C4: create-next on a sent invoice with line items creates one invoice
    chained to it (same project and contract, number from
    [next_invoice_number]) and, for each of its line items in order, a line
    item of the new invoice with the same name, [previous_billing = old
    previous_billing + old amount], quantity 0 and amount 0; the project's
    [current_invoice_id] points at the new invoice. *)
Theorem create_next_carries_forward : forall E st invoice_id invoice,
  find_active_invoice st invoice_id = Some invoice ->
  i_sent_status invoice = "sent" ->
  line_items_of st invoice_id <> [] ->
  exists new_inv st' new_lis,
    run_request (create_next_invoice E invoice_id) st = (Ok new_inv, st') /\
    invoices st' = (invoices st ++ [new_inv])%list /\
    invoice_line_items st' = (invoice_line_items st ++ new_lis)%list /\
    Forall2 (fun old nw =>
               li_invoice_id nw = i_id new_inv /\ li_name nw = li_name old /\
               (li_previous_billing nw == li_previous_billing old + li_amount old)%Q /\
               li_quantity nw = 0%Q /\ li_amount nw = 0%Q)
            (line_items_of st invoice_id) new_lis /\
    i_previous_invoice_id new_inv = Some invoice_id /\
    i_project_id new_inv = i_project_id invoice /\
    i_contract_id new_inv = i_contract_id invoice /\
    i_invoice_number new_inv = Some (next_invoice_number st (i_project_id invoice)) /\
    projects st' =
      map (fun p => if String.eqb (p_id p) (i_project_id invoice)
                    then set_current_invoice p (Some (i_id new_inv)) (Some (env_now E))
                    else p) (projects st).
Proof.
  intros E st invoice_id invoice Hf Hs Hne.
  rewrite create_next_invoice_run, Hf, Hs. simpl negb. cbv iota.
  destruct (line_items_of st invoice_id) as [|l ls] eqn:Hl; [contradiction|].
  do 3 eexists. split; [reflexivity|].
  split; [reflexivity|]. split; [reflexivity|].
  split; [|repeat split].
  pose proof (draft_rows_fields E ("inv-" ++ env_hex E 0) (map carry_forward (l :: ls)) 0 1
                (env_now E)) as Hrows.
  apply Forall2_map_l in Hrows.
  revert Hrows. apply Forall2_impl.
  intros old nw (Hinv & Hname & _ & Hq & _ & Ha & Hpb).
  unfold carry_forward in *; simpl in *.
  repeat split; auto.
  rewrite Hpb, !or0_eq. reflexivity.
Qed.

Lemma create_next_carries_forward_witness :
  exists new_inv st' new_lis,
    run_request (create_next_invoice demo_env "inv-1") demo_db = (Ok new_inv, st') /\
    invoice_line_items st' = (invoice_line_items demo_db ++ new_lis)%list.
Proof.
  destruct (create_next_carries_forward demo_env demo_db "inv-1" demo_invoice
              eq_refl eq_refl ltac:(vm_compute; discriminate))
    as (new_inv & st' & new_lis & Hrun & _ & Hli & _).
  exists new_inv, st', new_lis. split; [exact Hrun|exact Hli].
Defined.

(** The scenario of the spec: a sent invoice with a line item
    [{amount: 500, previous_billing: 1000}] gives a next line item
    [{amount: 0, previous_billing: 1500}]. *)
Example carry_forward_500_1000 :
  let old := mkLineItem "li-9" "inv-1" 1 "Design" None 5 10000 500 1000 5 in
  let st := set_line_items [old] demo_db in
  match run_request (create_next_invoice demo_env "inv-1") st with
  | (Ok new_inv, st') =>
      map (fun li => (li_name li, Qeq_bool (li_amount li) 0,
                      Qeq_bool (li_previous_billing li) 1500))
          (line_items_of st' (i_id new_inv))
  | (Raise _, _) => []
  end = [("Design", true, true)].
Proof. vm_compute. reflexivity. Qed.

(** ** C10: create-next requires line items *)

(** C10: create-next on a non-deleted sent invoice without line items
    raises the 400 "No line items on current invoice" and leaves the store
    unchanged; hence every invoice create-next produces comes with at least
    one line item of its own. *)
Theorem create_next_requires_line_items : forall E st invoice_id,
  (forall invoice,
     find_active_invoice st invoice_id = Some invoice ->
     i_sent_status invoice = "sent" ->
     line_items_of st invoice_id = [] ->
     run_request (create_next_invoice E invoice_id) st =
     (Raise (HTTPException 400 "No line items on current invoice"), st)) /\
  (forall new_inv st',
     run_request (create_next_invoice E invoice_id) st = (Ok new_inv, st') ->
     exists new_lis,
       invoice_line_items st' = (invoice_line_items st ++ new_lis)%list /\
       new_lis <> [] /\ Forall (fun li => li_invoice_id li = i_id new_inv) new_lis).
Proof.
  intros E st invoice_id. split.
  - intros invoice Hf Hs Hl.
    rewrite create_next_invoice_run, Hf, Hs, Hl. reflexivity.
  - intros new_inv st' H.
    rewrite create_next_invoice_run in H.
    destruct (find_active_invoice st invoice_id) as [invoice|]; [|discriminate].
    destruct (negb (String.eqb (i_sent_status invoice) "sent")); [discriminate|].
    destruct (line_items_of st invoice_id) as [|l ls]; [discriminate|].
    injection H as <- <-.
    exists (draft_rows E ("inv-" ++ env_hex E 0) 0 1 (map carry_forward (l :: ls)) (env_now E)).
    split; [reflexivity|]. split.
    + simpl. discriminate.
    + eapply Forall2_Forall_r; [apply draft_rows_fields|].
      intros a b [Hb _]. exact Hb.
Qed.

Lemma create_next_requires_line_items_witness :
  run_request (create_next_invoice demo_env "inv-3") demo_db =
  (Raise (HTTPException 400 "No line items on current invoice"), demo_db).
Proof.
  apply (proj1 (create_next_requires_line_items demo_env demo_db "inv-3") demo_empty_invoice);
    vm_compute; reflexivity.
Defined.

(** ** C6: soft delete of an invoice *)

Lemma delete_invoice_run : forall E st invoice_id,
  run_request (delete_invoice E invoice_id) st =
  match find_active_invoice st invoice_id with
  | None => (Raise (HTTPException 404 "Invoice not found"), st)
  | Some inv =>
      let st1 := set_invoices
                   (map (fun i => if String.eqb (i_id i) invoice_id
                                  then set_deleted_at i (env_now E) else i) (invoices st)) st in
      (Ok tt,
       if py_truthy (i_project_id inv)
       then set_projects
              (map (fun p => if String.eqb (p_id p) (i_project_id inv)
                                && opt_str_eqb (p_current_invoice_id p) invoice_id
                             then set_current_invoice p None (p_updated_at p)
                             else p) (projects st1)) st1
       else st1)
  end.
Proof.
  intros E st invoice_id.
  unfold run_request, delete_invoice, bind, get, raise.
  cbn -[find_active_invoice].
  destruct (find_active_invoice st invoice_id) as [inv|]; [|reflexivity].
  destruct (py_truthy (i_project_id inv)); reflexivity.
Qed.

Lemma filter_inner_join : forall (P : LineItem -> bool) (c : Invoice -> bool) li invs,
  filter P (flat_map (fun inv => if c inv then [li] else []) invs) =
  if P li then flat_map (fun inv => if c inv then [li] else []) invs else [].
Proof.
  intros P c li invs. induction invs as [|inv invs IH]; simpl.
  - destruct (P li); reflexivity.
  - destruct (c inv); simpl; rewrite ?IH; destruct (P li); reflexivity.
Qed.

Lemma inner_join_soft_delete : forall contract_id invoice_id now li invs,
  flat_map (fun inv => if String.eqb (li_invoice_id li) (i_id inv)
                          && active_contract_invoice contract_id inv then [li] else [])
           (map (fun i => if String.eqb (i_id i) invoice_id then set_deleted_at i now else i) invs) =
  if String.eqb (li_invoice_id li) invoice_id then []
  else flat_map (fun inv => if String.eqb (li_invoice_id li) (i_id inv)
                               && active_contract_invoice contract_id inv then [li] else []) invs.
Proof.
  intros contract_id invoice_id now li invs.
  induction invs as [|inv invs IH]; simpl.
  - destruct (String.eqb (li_invoice_id li) invoice_id); reflexivity.
  - rewrite IH.
    destruct (String.eqb (i_id inv) invoice_id) eqn:Hi.
    + apply String.eqb_eq in Hi. subst invoice_id.
      unfold active_contract_invoice; simpl.
      destruct (String.eqb (li_invoice_id li) (i_id inv)); simpl;
        rewrite ?andb_false_r; reflexivity.
    + destruct (String.eqb (li_invoice_id li) invoice_id) eqn:Hl.
      * apply String.eqb_eq in Hl. subst invoice_id.
        rewrite String.eqb_sym, Hi. reflexivity.
      * reflexivity.
Qed.

Lemma billing_join_soft_delete : forall st contract_id invoice_id now,
  billing_join
    (set_invoices (map (fun i => if String.eqb (i_id i) invoice_id
                                 then set_deleted_at i now else i) (invoices st)) st)
    contract_id =
  filter (fun li => negb (String.eqb (li_invoice_id li) invoice_id))
         (billing_join st contract_id).
Proof.
  intros st contract_id invoice_id now. unfold billing_join; simpl.
  induction (invoice_line_items st) as [|li lis IH]; simpl; [reflexivity|].
  rewrite filter_app, IH, filter_inner_join, inner_join_soft_delete.
  destruct (String.eqb (li_invoice_id li) invoice_id); reflexivity.
Qed.

Lemma billing_join_set_projects : forall l st contract_id,
  billing_join (set_projects l st) contract_id = billing_join st contract_id.
Proof. reflexivity. Qed.

(** C6: deleting a non-deleted invoice only sets its [deleted_at]: its
    line items, the contracts and the contract tasks stay as they were (no
    billing reversal); the owning project's [current_invoice_id] is cleared
    exactly when it pointed at the invoice; the billed state computed
    afterwards counts the line items of the remaining active invoices only.
    Deleting an already deleted or absent invoice raises NotFound and
    changes nothing. *)
Theorem delete_invoice_soft : forall E st invoice_id,
  match find_active_invoice st invoice_id with
  | None =>
      run_request (delete_invoice E invoice_id) st =
      (Raise (HTTPException 404 "Invoice not found"), st)
  | Some inv =>
      i_project_id inv <> "" ->
      exists st',
        run_request (delete_invoice E invoice_id) st = (Ok tt, st') /\
        invoices st' =
          map (fun i => if String.eqb (i_id i) invoice_id
                        then set_deleted_at i (env_now E) else i) (invoices st) /\
        invoice_line_items st' = invoice_line_items st /\
        contracts st' = contracts st /\ contract_tasks st' = contract_tasks st /\
        projects st' =
          map (fun p => if String.eqb (p_id p) (i_project_id inv)
                           && opt_str_eqb (p_current_invoice_id p) invoice_id
                        then set_current_invoice p None (p_updated_at p)
                        else p) (projects st) /\
        (forall contract_id,
           billing_join st' contract_id =
           filter (fun li => negb (String.eqb (li_invoice_id li) invoice_id))
                  (billing_join st contract_id)) /\
        (forall contract_id name,
           (task_billed_amount st' contract_id name ==
            sumQ (map li_amount
                    (filter (fun li => String.eqb (li_name li) name)
                       (filter (fun li => negb (String.eqb (li_invoice_id li) invoice_id))
                               (billing_join st contract_id)))))%Q)
  end.
Proof.
  intros E st invoice_id.
  pose proof (delete_invoice_run E st invoice_id) as Hrun.
  destruct (find_active_invoice st invoice_id) as [inv|]; [|exact Hrun].
  intros Hpid.
  assert (Ht : py_truthy (i_project_id inv) = true).
  { unfold py_truthy. apply negb_true_iff, String.eqb_neq. exact Hpid. }
  rewrite Ht in Hrun.
  eexists. split; [exact Hrun|].
  repeat split; try reflexivity.
  - intros contract_id. rewrite billing_join_set_projects.
    apply billing_join_soft_delete.
  - intros contract_id name. unfold task_billed_amount.
    rewrite billing_join_set_projects, billing_join_soft_delete. reflexivity.
Qed.

Lemma delete_invoice_soft_witness :
  exists st', run_request (delete_invoice demo_env "inv-1") demo_db = (Ok tt, st') /\
    invoice_line_items st' = invoice_line_items demo_db.
Proof.
  destruct (delete_invoice_soft demo_env demo_db "inv-1" ltac:(discriminate))
    as (st' & Hrun & _ & Hli & _).
  exists st'. split; [exact Hrun|exact Hli].
Defined.

(** The scenario of the spec: after the delete of the invoice that billed
    "Design" 50%, its computed billed percent is back to 0. *)
Example delete_restores_billed_percent :
  match run_request (delete_invoice demo_env "inv-1") demo_db with
  | (Ok _, st') =>
      match fst (run_request (get_contract "con-1") st') with
      | Ok cv => map (fun t => Qeq_bool (ct_billed_percent t) 0) (cv_tasks cv)
      | Raise _ => []
      end
  | (Raise _, _) => []
  end = [true].
Proof. vm_compute. reflexivity. Qed.

Example delete_twice_not_found :
  match run_request (delete_invoice demo_env "inv-1") demo_db with
  | (Ok _, st') => run_request (delete_invoice demo_env "inv-1") st' = (Raise (HTTPException 404 "Invoice not found"), st')
  | (Raise _, _) => False
  end.
Proof. vm_compute. reflexivity. Qed.

(** ** C5: invoice numbering *)

Lemma invoice_suffix_step_spec : forall m row,
  invoice_suffix_step m row =
  match numeric_suffix row with Some n => Nat.max m n | None => m end.
Proof.
  intros m row. unfold invoice_suffix_step, numeric_suffix.
  destruct (i_invoice_number row) as [s|]; [|reflexivity].
  unfold py_truthy. destruct (String.eqb s "") eqn:Hs; simpl.
  - apply String.eqb_eq in Hs. subst s. reflexivity.
  - destruct (rsplit_dash s) as [[a last]|]; [|reflexivity].
    destruct (py_isdigit last); reflexivity.
Qed.

Lemma fold_suffix_max : forall rows m,
  let N := fold_left invoice_suffix_step rows m in
  m <= N /\
  (forall r n, In r rows -> numeric_suffix r = Some n -> n <= N) /\
  (N = m \/ exists r, In r rows /\ numeric_suffix r = Some N).
Proof.
  induction rows as [|r rows IH]; intros m; simpl.
  - split; [lia|]. split; [tauto|]. left; reflexivity.
  - rewrite invoice_suffix_step_spec.
    set (m' := match numeric_suffix r with Some n => Nat.max m n | None => m end).
    destruct (IH m') as (Hle & Hall & Hwho).
    assert (Hmm' : m <= m') by (unfold m'; destruct (numeric_suffix r); lia).
    split; [lia|]. split.
    + intros r' n [<-|Hin] Hs.
      * assert (n <= m') by (unfold m'; rewrite Hs; lia). lia.
      * eauto.
    + destruct Hwho as [Heq|(r' & Hin & Hs)].
      * unfold m' in *. destruct (numeric_suffix r) as [n|] eqn:Hr.
        -- destruct (Nat.max_spec m n) as [[_ Hmx]|[_ Hmx]]; rewrite Hmx in *.
           ++ right. exists r. split; [left; reflexivity|]. rewrite Hr, Heq. reflexivity.
           ++ left. exact Heq.
        -- left. exact Heq.
      * right. exists r'. split; [right; exact Hin|exact Hs].
Qed.

(** [next_invoice_number] is the prefix, a dash, and one more than the
    largest numeric suffix over all invoices of the project, deleted ones
    included (0 when there is none). *)
Lemma next_invoice_number_max_suffix : forall st project_id,
  exists N,
    next_invoice_number st project_id =
      invoice_number_prefix st project_id ++ "-" ++ py_str_nat (N + 1) /\
    (forall inv n, In inv (invoices st) -> i_project_id inv = project_id ->
                   numeric_suffix inv = Some n -> n <= N) /\
    (N = 0 \/ exists inv, In inv (invoices st) /\ i_project_id inv = project_id /\
                          numeric_suffix inv = Some N).
Proof.
  intros st project_id.
  destruct (fold_suffix_max
              (filter (fun i => String.eqb (i_project_id i) project_id) (invoices st)) 0)
    as (_ & Hall & Hwho).
  eexists. split; [reflexivity|]. split.
  - intros inv n Hin Hp Hs. apply (Hall inv n); [|exact Hs].
    apply filter_In. split; [exact Hin|]. apply String.eqb_eq; exact Hp.
  - destruct Hwho as [H0|(inv & Hin & Hs)]; [left; exact H0|right].
    apply filter_In in Hin as [Hin Hp]. apply String.eqb_eq in Hp.
    exists inv. auto.
Qed.

(** With a [job_code] the numbering survives a delete: PROJ-1, deleted,
    is followed by PROJ-2. *)
Example numbering_survives_deletion :
  let st0 := set_projects [mkProject "P9" (Some "PROJ") None "contract" None None None] test_db in
  match run_request (add_invoice_to_project demo_env "P9" None "list" None 100) st0 with
  | (Ok a, st1) =>
      match run_request (delete_invoice demo_env (i_id a)) st1 with
      | (Ok _, st2) =>
          match run_request (add_invoice_to_project demo_env "P9" None "list" None 200) st2 with
          | (Ok b, _) => (i_invoice_number a, i_invoice_number b)
          | _ => (None, None)
          end
      | _ => (None, None)
      end
  | _ => (None, None)
  end = (Some "PROJ-1", Some "PROJ-2").
Proof. vm_compute. reflexivity. Qed.

(** C5 (failing input): for a project that exists without [job_code] and
    [project_number] (the project TEST01 of the repository's test), the
    prefix is the formatted [None], not the project id: the first invoice
    of TEST01 is numbered "None-1" where the test expects "TEST01-1". *)
Theorem next_invoice_number_no_codes_prefix :
  next_invoice_number test_db "TEST01" = "None-1" /\
  fst (run_request (add_invoice_to_project demo_env "TEST01" None "list" None 100) test_db) =
  Ok {| i_id := "inv-0000000a"; i_invoice_number := Some "None-1";
        i_project_id := "TEST01"; i_contract_id := None; i_previous_invoice_id := None;
        i_type := "list"; i_total_due := 100%Q; i_sent_status := "unsent";
        i_paid_status := "unpaid"; i_sent_at := None; i_paid_at := None;
        i_description := None; i_data_path := None; i_pdf_path := None;
        i_created_at := 100; i_updated_at := 100; i_deleted_at := None |}.
Proof. split; vm_compute; reflexivity. Qed.

(** ** C7, C8: promotion of a proposal *)

Lemma set_contract_tasks_twice : forall l1 l2 st,
  set_contract_tasks l2 (set_contract_tasks l1 st) = set_contract_tasks l2 st.
Proof. intros l1 l2 []; reflexivity. Qed.

Lemma copy_proposal_tasks_run : forall E contract_id tasks db c d,
  copy_proposal_tasks E contract_id tasks (mkTx db c d) =
  (Ok tt, mkTx (set_contract_tasks (contract_tasks db ++ ctask_rows E contract_id d tasks) db)
               c (d + length tasks)).
Proof.
  intros E contract_id tasks. induction tasks as [|t tasks IH]; intros db c d.
  - simpl. rewrite app_nil_r, Nat.add_0_r. destruct db; reflexivity.
  - simpl. unfold bind, generate_id, modify, ret. simpl.
    rewrite IH. simpl. rewrite set_contract_tasks_twice, <- app_assoc.
    replace (d + S (length tasks)) with (S d + length tasks) by lia.
    reflexivity.
Qed.

Lemma ctask_rows_fields : forall E contract_id tasks d,
  Forall2 (fun pt ct =>
             ct_contract_id ct = contract_id /\ ct_sort_order ct = pt_sort_order pt /\
             ct_name ct = pt_name pt /\ ct_description ct = pt_description pt /\
             ct_amount ct = pt_amount pt /\
             ct_billed_amount ct = 0%Q /\ ct_billed_percent ct = 0%Q)
          tasks (ctask_rows E contract_id d tasks).
Proof.
  intros E contract_id tasks. induction tasks as [|t tasks IH]; intros d; simpl.
  - constructor.
  - constructor; [repeat split|apply IH].
Qed.

Lemma promote_to_contract_run : forall E st proposal_id signed_at file_path,
  match find_active_proposal st proposal_id with
  | None =>
      run_request (promote_to_contract E proposal_id signed_at file_path) st =
      (Raise (HTTPException 404 "Proposal not found"), st)
  | Some pr =>
      exists cv,
        run_request (promote_to_contract E proposal_id signed_at file_path) st =
        (Ok cv, promote_db E st pr proposal_id signed_at file_path)
  end.
Proof.
  intros E st proposal_id signed_at file_path.
  unfold run_request, promote_to_contract, _get_proposal_dict, bind, get, raise.
  cbn -[copy_proposal_tasks find].
  unfold find_active_proposal.
  destruct (find _ (proposals st)) as [pr|]; [|reflexivity].
  cbn -[copy_proposal_tasks find].
  rewrite copy_proposal_tasks_run.
  cbn -[find]. eexists. reflexivity.
Qed.

(** C7: promoting a non-deleted proposal adds one contract under the
    proposal's project with [total_amount = total_fee] and [signed_at] the
    given value or now; it copies the proposal's tasks, in [sort_order],
    one contract task each, with the same sort order, name, description
    and amount and billed amount and percent 0; it marks the proposal
    "accepted" and the project "contract".  A missing or deleted proposal
    raises NotFound and changes nothing. *)
Theorem promote_to_contract_copies_tasks : forall E st proposal_id signed_at file_path,
  match find_active_proposal st proposal_id with
  | None =>
      run_request (promote_to_contract E proposal_id signed_at file_path) st =
      (Raise (HTTPException 404 "Proposal not found"), st)
  | Some pr =>
      exists cv st' c new_tasks,
        run_request (promote_to_contract E proposal_id signed_at file_path) st = (Ok cv, st') /\
        contracts st' = (contracts st ++ [c])%list /\
        c_project_id c = pr_project_id pr /\
        c_total_amount c = pr_total_fee pr /\
        c_signed_at c = Some (default (env_now_iso E) (py_or signed_at None)) /\
        c_deleted_at c = None /\
        contract_tasks st' = (contract_tasks st ++ new_tasks)%list /\
        Forall2 (fun pt ct =>
                   ct_contract_id ct = c_id c /\ ct_sort_order ct = pt_sort_order pt /\
                   ct_name ct = pt_name pt /\ ct_description ct = pt_description pt /\
                   ct_amount ct = pt_amount pt /\
                   ct_billed_amount ct = 0%Q /\ ct_billed_percent ct = 0%Q)
                (proposal_tasks_of st proposal_id) new_tasks /\
        proposals st' =
          map (fun p => if String.eqb (pr_id p) proposal_id
                        then set_proposal_status p "accepted" (env_now E) else p)
              (proposals st) /\
        projects st' =
          map (fun p => if String.eqb (p_id p) (pr_project_id pr)
                        then set_project_status p "contract" (env_now E) else p)
              (projects st)
  end.
Proof.
  intros E st proposal_id signed_at file_path.
  pose proof (promote_to_contract_run E st proposal_id signed_at file_path) as Hrun.
  destruct (find_active_proposal st proposal_id) as [pr|]; [|exact Hrun].
  destruct Hrun as [cv Hrun].
  exists cv, (promote_db E st pr proposal_id signed_at file_path),
         (promoted_contract E pr signed_at file_path),
         (ctask_rows E ("con-" ++ env_hex E 0) 1 (proposal_tasks_of st proposal_id)).
  split; [exact Hrun|].
  repeat split; try reflexivity.
  apply ctask_rows_fields.
Qed.

(** The scenario of the spec: tasks of 300 and 700 give a contract of
    1000 and two contract tasks with the same names and amounts, billed
    0%. *)
Example promote_300_700 :
  match run_request (promote_to_contract demo_env "pr-1" None None) demo_db with
  | (Ok cv, st') =>
      (Qeq_bool (c_total_amount (last (contracts st') demo_contract)) 1000,
       map (fun t => (ct_sort_order t, ct_name t, Qeq_bool (ct_amount t) 300,
                      Qeq_bool (ct_amount t) 700, Qeq_bool (ct_billed_percent t) 0))
           (cv_tasks cv))
  | (Raise _, _) => (false, [])
  end = (true, [(1, "Survey", true, false, true); (2, "Design", false, true, true)]).
Proof. vm_compute. reflexivity. Qed.

(** C8, counterexample: the proposal "pr-0" of the sample store has no
    tasks, yet promoting it succeeds, adds a contract row and no contract
    task, and marks the proposal accepted. *)
Lemma promote_empty_proposal_succeeds :
  exists cv st',
    run_request (promote_to_contract demo_env "pr-0" None None) demo_db = (Ok cv, st') /\
    length (contracts st') = S (length (contracts demo_db)) /\
    contract_tasks st' = contract_tasks demo_db /\
    map pr_status (proposals st') = ["sent"; "accepted"].
Proof.
  pose proof (promote_to_contract_run demo_env demo_db "pr-0" None None) as Hrun.
  vm_compute in Hrun. destruct Hrun as [cv Hrun].
  exists cv, (promote_db demo_env demo_db demo_empty_proposal "pr-0" None None).
  split; [exact Hrun|].
  vm_compute. repeat split; reflexivity.
Qed.

(** C8, amended: promoting a non-deleted proposal that has no tasks is not
    rejected.  It succeeds, adds one contract under the proposal's project
    with [total_amount = total_fee] and no contract task, marks the proposal
    "accepted" and the project "contract". *)
Theorem promote_without_tasks_creates_empty_contract :
  forall E st proposal_id signed_at file_path pr,
    find_active_proposal st proposal_id = Some pr ->
    proposal_tasks_of st proposal_id = [] ->
    exists cv st' c,
      run_request (promote_to_contract E proposal_id signed_at file_path) st = (Ok cv, st') /\
      contracts st' = (contracts st ++ [c])%list /\
      c_project_id c = pr_project_id pr /\
      c_total_amount c = pr_total_fee pr /\
      contract_tasks st' = contract_tasks st /\
      proposals st' =
        map (fun p => if String.eqb (pr_id p) proposal_id
                      then set_proposal_status p "accepted" (env_now E) else p)
            (proposals st) /\
      projects st' =
        map (fun p => if String.eqb (p_id p) (pr_project_id pr)
                      then set_project_status p "contract" (env_now E) else p)
            (projects st).
Proof.
  intros E st proposal_id signed_at file_path pr Hfind Htasks.
  pose proof (promote_to_contract_run E st proposal_id signed_at file_path) as Hrun.
  rewrite Hfind in Hrun. destruct Hrun as [cv Hrun].
  exists cv, (promote_db E st pr proposal_id signed_at file_path),
         (promoted_contract E pr signed_at file_path).
  split; [exact Hrun|].
  unfold promote_db. rewrite Htasks. simpl.
  repeat split; try reflexivity.
  apply app_nil_r.
Qed.

Lemma promote_without_tasks_creates_empty_contract_witness :
  find_active_proposal demo_db "pr-0" = Some demo_empty_proposal /\
  proposal_tasks_of demo_db "pr-0" = [] /\
  exists cv st' c,
    run_request (promote_to_contract demo_env "pr-0" None None) demo_db = (Ok cv, st') /\
    contracts st' = (contracts demo_db ++ [c])%list /\
    c_project_id c = pr_project_id demo_empty_proposal /\
    c_total_amount c = pr_total_fee demo_empty_proposal /\
    contract_tasks st' = contract_tasks demo_db /\
    proposals st' =
      map (fun p => if String.eqb (pr_id p) "pr-0"
                    then set_proposal_status p "accepted" (env_now demo_env) else p)
          (proposals demo_db) /\
    projects st' =
      map (fun p => if String.eqb (p_id p) (pr_project_id demo_empty_proposal)
                    then set_project_status p "contract" (env_now demo_env) else p)
          (projects demo_db).
Proof.
  split; [reflexivity|]. split; [reflexivity|].
  apply (promote_without_tasks_creates_empty_contract demo_env demo_db "pr-0" None None
           demo_empty_proposal); reflexivity.
Defined.

(** ** C2: creating an invoice from a contract *)

Lemma line_items_loop_run : forall contract_id specs total acc tx,
  (exists lds total',
     line_items_loop contract_id specs total acc tx = (Ok ((acc ++ lds)%list, total'), tx) /\
     (total' == total + sumQ (map ld_amount lds))%Q /\
     Forall2 (fun spec ld =>
                exists task,
                  find_contract_task (tx_db tx) (ts_task_id spec) contract_id = Some task /\
                  ld_name ld = ct_name task /\
                  ld_unit_price ld = ct_amount task /\
                  ld_quantity ld = ts_percent_this_invoice spec /\
                  ld_amount ld = (ct_amount task * ts_percent_this_invoice spec / 100)%Q /\
                  ld_previous_billing ld =
                    previous_billing_query (tx_db tx) contract_id (ct_name task))
             specs lds)
  \/
  (exists spec,
     In spec specs /\
     find_contract_task (tx_db tx) (ts_task_id spec) contract_id = None /\
     line_items_loop contract_id specs total acc tx =
     (Raise (HTTPException 404 ("Task " ++ ts_task_id spec ++ " not found")), tx)).
Proof.
  intros contract_id specs. induction specs as [|spec specs IH]; intros total acc tx.
  - left. exists [], total. rewrite app_nil_r. split; [reflexivity|].
    split; [simpl; rewrite Qplus_0_r; reflexivity|constructor].
  - simpl. unfold bind, get.
    destruct (find_contract_task (tx_db tx) (ts_task_id spec) contract_id) as [task|] eqn:Hf.
    + destruct (IH (total + ct_amount task * ts_percent_this_invoice spec / 100)%Q
                   ((acc ++ [{| ld_name := ct_name task;
                               ld_description := ct_description task;
                               ld_unit_price := ct_amount task;
                               ld_quantity := ts_percent_this_invoice spec;
                               ld_amount := (ct_amount task * ts_percent_this_invoice spec / 100)%Q;
                               ld_previous_billing :=
                                 previous_billing_query (tx_db tx) contract_id (ct_name task) |}])%list)
                   tx) as [[lds [t' [Hrun [Ht Hall]]]]|[sp [Hin [Hnf Hrun]]]].
      * left. eexists (_ :: lds), t'. rewrite Hrun, <- app_assoc. split; [reflexivity|].
        split.
        -- rewrite Ht. cbn [map]. rewrite sumQ_cons. simpl. ring.
        -- constructor; [|exact Hall]. exists task. repeat split; assumption || reflexivity.
      * right. exists sp. split; [right; exact Hin|]. split; assumption.
    + right. exists spec. split; [left; reflexivity|]. split; [exact Hf|reflexivity].
Qed.

(** C2: [InvoiceFromContract] declares only [tasks] and [pm_email], and
    the handler reads [data.invoice_number] before any write: for an
    existing contract every request ends in [AttributeError] (an HTTP 500)
    and writes nothing; a missing contract gives NotFound. *)
Theorem create_invoice_from_contract_attribute_error :
  forall E st contract_id data,
    run_request (create_invoice_from_contract E InvoiceFromContract_fields contract_id data) st =
    match find_active_contract st contract_id with
    | None => (Raise (HTTPException 404 "Contract not found"), st)
    | Some _ => (Raise (AttributeError "invoice_number"), st)
    end.
Proof.
  intros E st contract_id data.
  unfold run_request, create_invoice_from_contract, bind, get, raise.
  cbn -[find_active_contract].
  destruct (find_active_contract st contract_id); reflexivity.
Qed.

(** On the repository's own test input the request fails although the test
    expects status 200. *)
Example test_contract_invoice_fails :
  run_request (create_invoice_from_contract demo_env InvoiceFromContract_fields "con-test1"
                 test_invoice_request) test_contract_db =
  (Raise (AttributeError "invoice_number"), test_contract_db).
Proof. vm_compute. reflexivity. Qed.

(** With a model that declares every field the router reads, the same
    request writes one invoice of 500 and one line item of 500 at 50%. *)
Example test_contract_invoice_router_fields :
  match run_request (create_invoice_from_contract demo_env InvoiceFromContract_router_fields
                       "con-test1" test_invoice_request) test_contract_db with
  | (Ok inv, st') =>
      (Qeq_bool (i_total_due inv) 500, i_invoice_number inv,
       map (fun li => (li_name li, Qeq_bool (li_amount li) 500, Qeq_bool (li_quantity li) 50,
                       Qeq_bool (li_unit_price li) 1000, Qeq_bool (li_previous_billing li) 0))
           (invoice_line_items st'),
       map p_current_invoice_id (projects st'))
  | (Raise _, _) => (false, None, [], [])
  end =
  (true, Some "None-1", [("Design", true, true, true, true)], [Some ("inv-" ++ env_hex demo_env 0)]).
Proof. vm_compute. reflexivity. Qed.

(** ** C9: the generic PATCH of an invoice *)

(** C9: [InvoiceUpdate] does not declare [line_items], and the handler
    reads [data.line_items] before any write: every PATCH of a non-deleted
    invoice ends in [AttributeError] (an HTTP 500), with or without line
    items and with or without [total_due], and writes nothing; a missing or
    deleted invoice gives NotFound. *)
Theorem update_invoice_attribute_error :
  forall E st invoice_id data,
    run_request (update_invoice E InvoiceUpdate_fields invoice_id data) st =
    match find_active_invoice st invoice_id with
    | None => (Raise (HTTPException 404 "Invoice not found"), st)
    | Some _ => (Raise (AttributeError "line_items"), st)
    end.
Proof.
  intros E st invoice_id data.
  unfold run_request, update_invoice, bind, get, raise.
  cbn -[find_active_invoice].
  destruct (find_active_invoice st invoice_id); reflexivity.
Qed.

(** Even with [line_items] declared, the loop only sums the items at
    positions below [len(data.line_items)]: editing the first of two items
    (quantity 60 of 10000, so 6000) stores a total of 6000 and drops the
    untouched "Survey" item of 300. *)
Example update_invoice_drops_unlisted_items :
  match run_request (update_invoice demo_env InvoiceUpdate_router_fields "inv-1" demo_patch)
                    demo_two_items_db with
  | (Ok inv, st') =>
      (Qeq_bool (i_total_due inv) 6000,
       map (fun li => (li_id li, Qeq_bool (li_amount li) 6000, Qeq_bool (li_amount li) 300))
           (filter (fun li => String.eqb (li_invoice_id li) "inv-1") (invoice_line_items st')))
  | (Raise _, _) => (false, [])
  end = (true, [("li-1", true, false); ("li-2", false, true)]).
Proof. vm_compute. reflexivity. Qed.

(** ** Contracts and contract tasks *)

Lemma find_map_same {A} (P : A -> bool) (f : A -> A) (l : list A) :
  (forall x, P (f x) = P x) -> find P (map f l) = option_map f (find P l).
Proof.
  intros HP. induction l as [|x l IH]; simpl; [reflexivity|].
  rewrite HP. destruct (P x); [reflexivity|exact IH].
Qed.

Lemma fold_max_ge_init : forall l a, a <= fold_left Nat.max l a.
Proof.
  induction l as [|x l IH]; intros a; simpl; [lia|].
  specialize (IH (Nat.max a x)). lia.
Qed.

Lemma fold_max_ge : forall l a x, In x l -> x <= fold_left Nat.max l a.
Proof.
  induction l as [|y l IH]; intros a x Hin; simpl in *; [contradiction|].
  destruct Hin as [->|Hin].
  - pose proof (fold_max_ge_init l (Nat.max a x)). lia.
  - apply IH; exact Hin.
Qed.

Lemma sumQ_app : forall l1 l2, (sumQ (l1 ++ l2) == sumQ l1 + sumQ l2)%Q.
Proof.
  induction l1 as [|x l1 IH]; intros l2; simpl.
  - unfold sumQ at 2. simpl. ring.
  - rewrite !sumQ_cons, IH. ring.
Qed.

Lemma contract_tasks_max_order_ge : forall st contract_id t,
  In t (contract_tasks st) -> ct_contract_id t = contract_id ->
  ct_sort_order t <= contract_tasks_max_order st contract_id.
Proof.
  intros st contract_id t Hin Hc. unfold contract_tasks_max_order.
  apply fold_max_ge, in_map, filter_In. split; [exact Hin|].
  apply String.eqb_eq; exact Hc.
Qed.

Lemma active_contract_set_total : forall contract_id total now c,
  (fun c => String.eqb (c_id c) contract_id && is_none (c_deleted_at c))
    ((fun c => if String.eqb (c_id c) contract_id then set_contract_total c total now else c) c)
  = String.eqb (c_id c) contract_id && is_none (c_deleted_at c).
Proof. intros. cbv beta. destruct (String.eqb (c_id c) contract_id) eqn:E; simpl; rewrite ?E; reflexivity. Qed.

(** [add_contract_task] on an active contract commits one new task of that
    contract, numbered after every task it already has, and sets the
    contract's [total_amount] to the sum of its tasks' amounts, the new one
    included; on a missing or deleted contract it raises NotFound and
    writes nothing. *)
Theorem add_contract_task_updates_total : forall E st contract_id data,
  match find_active_contract st contract_id with
  | None =>
      run_request (add_contract_task E contract_id data) st =
      (Raise (HTTPException 404 "Contract not found"), st)
  | Some _ =>
      exists cv st' row,
        run_request (add_contract_task E contract_id data) st = (Ok cv, st') /\
        contract_tasks st' = (contract_tasks st ++ [row])%list /\
        ct_contract_id row = contract_id /\ ct_name row = ctc_name data /\
        ct_description row = ctc_description data /\ ct_amount row = ctc_amount data /\
        (forall t, In t (contract_tasks st) -> ct_contract_id t = contract_id ->
                   ct_sort_order t < ct_sort_order row) /\
        contracts st' =
          map (fun c => if String.eqb (c_id c) contract_id
                        then set_contract_total c (contract_tasks_total st' contract_id) (env_now E)
                        else c) (contracts st) /\
        (contract_tasks_total st' contract_id ==
         contract_tasks_total st contract_id + ctc_amount data)%Q
  end.
Proof.
  intros E st contract_id data. unfold find_active_contract.
  destruct (find _ (contracts st)) as [c|] eqn:Hf;
    [|unfold run_request, add_contract_task, bind, get, raise, find_active_contract;
      cbn -[find]; rewrite Hf; reflexivity].
  unfold run_request, add_contract_task, bind, get, ret, raise, modify, commit, generate_id,
    _update_contract_total, find_active_contract, get_contract.
  cbn -[find contract_tasks_max_order contract_tasks_total].
  rewrite Hf. cbn -[find contract_tasks_max_order contract_tasks_total].
  rewrite find_map_same by apply active_contract_set_total.
  rewrite Hf. cbn -[contract_tasks_max_order contract_tasks_total].
  eexists _, _, _. split; [reflexivity|].
  split; [reflexivity|].
  repeat split; cbn -[contract_tasks_max_order contract_tasks_total].
  - intros t Hin Hc. pose proof (contract_tasks_max_order_ge st contract_id t Hin Hc). lia.
  - unfold contract_tasks_total. simpl. rewrite filter_app, map_app, sumQ_app.
    simpl. rewrite String.eqb_refl. simpl. unfold sumQ at 2. simpl. ring.
Qed.

Lemma find_map_false {A} (P : A -> bool) (f : A -> A) (l : list A) :
  (forall x, P (f x) = false) -> find P (map f l) = None.
Proof.
  intros HP. induction l as [|x l IH]; simpl; [reflexivity|]. rewrite HP. exact IH.
Qed.

(** [delete_contract_task] removes the task from the table and sets its
    contract's [total_amount] to the sum of the amounts of the tasks left;
    a task id that is not a task of that contract raises NotFound and
    writes nothing.  The contract itself is not required to be active. *)
Theorem delete_contract_task_updates_total : forall E st contract_id task_id,
  match find_contract_task st task_id contract_id with
  | None =>
      run_request (delete_contract_task E contract_id task_id) st =
      (Raise (HTTPException 404 "Task not found"), st)
  | Some _ =>
      exists st',
        run_request (delete_contract_task E contract_id task_id) st = (Ok tt, st') /\
        contract_tasks st' =
          filter (fun t => negb (String.eqb (ct_id t) task_id)) (contract_tasks st) /\
        contracts st' =
          map (fun c => if String.eqb (c_id c) contract_id
                        then set_contract_total c (contract_tasks_total st' contract_id) (env_now E)
                        else c) (contracts st)
  end.
Proof.
  intros E st contract_id task_id.
  unfold run_request, delete_contract_task, bind, get, ret, raise, modify, commit,
    _update_contract_total.
  cbn -[find_contract_task contract_tasks_total].
  destruct (find_contract_task st task_id contract_id); [|reflexivity].
  eexists. split; [reflexivity|]. split; reflexivity.
Qed.

(** [update_contract_task] with at least one field to change commits the
    change and the contract's new [total_amount] (the sum of its tasks'
    amounts) before it reads the contract back: on a task of a soft-deleted
    contract the response is NotFound although the writes are kept. *)
Theorem update_contract_task_commits_total : forall E st contract_id task_id data,
  find_contract_task st task_id contract_id <> None ->
  no_task_updates data = false ->
  exists st',
    contract_tasks st' =
      map (fun t => if String.eqb (ct_id t) task_id
                    then apply_contract_task_update data (env_now E) t else t)
          (contract_tasks st) /\
    contracts st' =
      map (fun c => if String.eqb (c_id c) contract_id
                    then set_contract_total c (contract_tasks_total st' contract_id) (env_now E)
                    else c) (contracts st) /\
    match find_active_contract st contract_id with
    | None =>
        run_request (update_contract_task E contract_id task_id data) st =
        (Raise (HTTPException 404 "Contract not found"), st')
    | Some _ =>
        exists cv, run_request (update_contract_task E contract_id task_id data) st = (Ok cv, st')
    end.
Proof.
  intros E st contract_id task_id data Hfind Hupd.
  unfold run_request, update_contract_task, bind, get, ret, raise, modify, commit,
    _update_contract_total, get_contract.
  cbn -[find_contract_task contract_tasks_total find no_task_updates].
  destruct (find_contract_task st task_id contract_id); [|contradiction].
  rewrite Hupd. cbn -[contract_tasks_total find].
  rewrite find_map_same by apply active_contract_set_total.
  set (st1 := set_contract_tasks
                (map (fun t => if String.eqb (ct_id t) task_id
                               then apply_contract_task_update data (env_now E) t else t)
                     (contract_tasks st)) st).
  exists (set_contracts
            (map (fun c => if String.eqb (c_id c) contract_id
                           then set_contract_total c (contract_tasks_total st1 contract_id)
                                  (env_now E) else c) (contracts st1)) st1).
  split; [reflexivity|]. split; [reflexivity|].
  unfold find_active_contract.
  destruct (find _ (contracts st)); simpl; [eexists|]; reflexivity.
Qed.

(** [delete_contract] soft-deletes an active contract and keeps its tasks;
    afterwards reading the contract and deleting it again both raise
    NotFound.  On a missing or deleted contract it raises NotFound and
    writes nothing. *)
Theorem delete_contract_soft : forall E E' st contract_id,
  match find_active_contract st contract_id with
  | None =>
      run_request (delete_contract E contract_id) st =
      (Raise (HTTPException 404 "Contract not found"), st)
  | Some _ =>
      exists st',
        run_request (delete_contract E contract_id) st = (Ok tt, st') /\
        contracts st' =
          map (fun c => if String.eqb (c_id c) contract_id
                        then set_contract_deleted c (env_now E) else c) (contracts st) /\
        contract_tasks st' = contract_tasks st /\
        run_request (get_contract contract_id) st' =
          (Raise (HTTPException 404 "Contract not found"), st') /\
        run_request (delete_contract E' contract_id) st' =
          (Raise (HTTPException 404 "Contract not found"), st')
  end.
Proof.
  intros E E' st contract_id.
  assert (Hnone : forall now,
    find (fun c => String.eqb (c_id c) contract_id && is_none (c_deleted_at c))
         (map (fun c => if String.eqb (c_id c) contract_id
                        then set_contract_deleted c now else c) (contracts st)) = None).
  { intros now. apply find_map_false. intros c.
    destruct (String.eqb (c_id c) contract_id) eqn:Hc; simpl; rewrite ?Hc; reflexivity. }
  unfold run_request, delete_contract, bind, get, ret, raise, modify, commit.
  cbn -[find_active_contract].
  destruct (find_active_contract st contract_id); [|reflexivity].
  eexists. split; [reflexivity|]. split; [reflexivity|]. split; [reflexivity|].
  unfold get_contract, find_active_contract, bind, get, raise. cbn -[find].
  rewrite Hnone. split; reflexivity.
Qed.

Lemma update_contract_task_commits_total_witness :
  find_contract_task demo_contracts_db "ct-9" "con-9" <> None /\
  no_task_updates demo_task_update = false /\
  exists st',
    contract_tasks st' =
      map (fun t => if String.eqb (ct_id t) "ct-9"
                    then apply_contract_task_update demo_task_update (env_now demo_env) t else t)
          (contract_tasks demo_contracts_db) /\
    contracts st' =
      map (fun c => if String.eqb (c_id c) "con-9"
                    then set_contract_total c (contract_tasks_total st' "con-9") (env_now demo_env)
                    else c) (contracts demo_contracts_db) /\
    match find_active_contract demo_contracts_db "con-9" with
    | None =>
        run_request (update_contract_task demo_env "con-9" "ct-9" demo_task_update)
          demo_contracts_db = (Raise (HTTPException 404 "Contract not found"), st')
    | Some _ =>
        exists cv, run_request (update_contract_task demo_env "con-9" "ct-9" demo_task_update)
                     demo_contracts_db = (Ok cv, st')
    end.
Proof.
  split; [vm_compute; discriminate|]. split; [reflexivity|].
  apply (update_contract_task_commits_total demo_env demo_contracts_db "con-9" "ct-9"
           demo_task_update); [vm_compute; discriminate|reflexivity].
Defined.

(** On the deleted contract con-9 the PATCH answers NotFound, yet the
    committed store holds the task's new amount 500 and the contract's new
    total 500. *)
Example update_task_of_deleted_contract :
  match run_request (update_contract_task demo_env "con-9" "ct-9" demo_task_update)
                    demo_contracts_db with
  | (Raise (HTTPException 404 _), st') =>
      (map (fun t => Qeq_bool (ct_amount t) 500) (contract_tasks st'),
       map (fun c => Qeq_bool (c_total_amount c) 500) (contracts st'))
  | _ => ([], [])
  end = ([false; true], [false; true]).
Proof. vm_compute. reflexivity. Qed.

Lemma insert_contract_tasks_run : forall E contract_id tasks i billed now db c d,
  Forall (fun t => td_name t <> None) tasks ->
  insert_contract_tasks E contract_id i tasks billed now (mkTx db c d) =
  (Ok tt, mkTx (set_contract_tasks
                  (contract_tasks db ++ task_dict_rows E contract_id i d tasks billed now) db)
               c (d + length tasks)).
Proof.
  intros E contract_id tasks. induction tasks as [|t tasks IH]; intros i billed now db c d Hall.
  - simpl. rewrite app_nil_r, Nat.add_0_r. destruct db; reflexivity.
  - inversion Hall as [|? ? Hname Hrest]; subst.
    simpl. unfold bind, generate_id, task_name, modify, ret, raise.
    destruct (td_name t) as [name|] eqn:Hn; [|contradiction]. simpl.
    rewrite IH by exact Hrest. simpl. rewrite set_contract_tasks_twice, <- app_assoc.
    replace (d + S (length tasks)) with (S d + length tasks) by lia.
    reflexivity.
Qed.

Lemma insert_contract_tasks_missing_name : forall E contract_id tasks i billed now tx,
  (exists t, In t tasks /\ td_name t = None) ->
  exists tx', insert_contract_tasks E contract_id i tasks billed now tx =
              (Raise (KeyError "name"), tx') /\ tx_committed tx' = tx_committed tx.
Proof.
  intros E contract_id tasks. induction tasks as [|t tasks IH];
    intros i billed now tx [t0 [Hin Hn]]; [contradiction|].
  simpl. unfold bind, generate_id, task_name, modify, ret, raise.
  destruct (td_name t) as [name|] eqn:Hname.
  - destruct Hin as [->|Hin]; [congruence|].
    simpl. match goal with
    | |- context [insert_contract_tasks _ _ _ _ _ _ ?tx1] =>
        destruct (IH (S i) billed now tx1) as [tx' [Hrun Hc]]; [exists t0; split; assumption|]
    end.
    exists tx'. rewrite Hrun. split; [reflexivity|exact Hc].
  - eexists. split; reflexivity.
Qed.

Lemma task_dict_rows_fields : forall E contract_id tasks i d billed now,
  map ct_sort_order (task_dict_rows E contract_id i d tasks billed now) =
    seq (S i) (length tasks) /\
  map ct_amount (task_dict_rows E contract_id i d tasks billed now) =
    map (fun t => default 0%Q (td_amount t)) tasks /\
  Forall (fun r => ct_contract_id r = contract_id) (task_dict_rows E contract_id i d tasks billed now).
Proof.
  intros E contract_id tasks. induction tasks as [|t tasks IH]; intros i d billed now; simpl.
  - repeat split; constructor.
  - destruct (IH (S i) (S d) billed now) as [H1 [H2 H3]].
    rewrite H1, H2. repeat split; [constructor; [reflexivity|exact H3]].
Qed.

Lemma filter_all {A} (P : A -> bool) (l : list A) :
  Forall (fun x => P x = true) l -> filter P l = l.
Proof.
  induction 1 as [|x l Hx _ IH]; simpl; [reflexivity|]. rewrite Hx, IH. reflexivity.
Qed.

Lemma filter_none {A} (P : A -> bool) (l : list A) :
  Forall (fun x => P x = false) l -> filter P l = [].
Proof.
  induction 1 as [|x l Hx _ IH]; simpl; [reflexivity|]. rewrite Hx. exact IH.
Qed.

Lemma find_app_hit {A} (P : A -> bool) (l : list A) (x : A) :
  P x = true -> exists y, find P (l ++ [x]) = Some y.
Proof.
  intros Hx. induction l as [|z l IH]; simpl.
  - rewrite Hx. eexists; reflexivity.
  - destruct (P z); [eexists; reflexivity|exact IH].
Qed.

Lemma nonempty_tasks_cons {A} (tasks : list A) :
  tasks <> [] -> nonempty_tasks (Some tasks) = Some tasks.
Proof. destruct tasks; [contradiction|reflexivity]. Qed.

(** [create_contract] with a non-empty [tasks] list whose dicts all have a
    [name] ignores [data.total_amount]: the contract's [total_amount] is the
    sum of the tasks' amounts (0 for a dict without [amount]), and the tasks
    are inserted for the new contract with sort orders 1, 2, ..., n and
    those amounts. *)
Theorem create_contract_total_from_tasks : forall E st data tasks,
  find_active_project st (ccr_project_id data) <> None ->
  ccr_tasks data = Some tasks -> tasks <> [] ->
  Forall (fun t => td_name t <> None) tasks ->
  exists cv st' c rows,
    run_request (create_contract E data) st = (Ok cv, st') /\
    contracts st' = (contracts st ++ [c])%list /\
    c_project_id c = ccr_project_id data /\
    c_total_amount c = sumQ (map (fun t => default 0%Q (td_amount t)) tasks) /\
    contract_tasks st' = (contract_tasks st ++ rows)%list /\
    Forall (fun r => ct_contract_id r = c_id c) rows /\
    map ct_sort_order rows = seq 1 (length tasks) /\
    map ct_amount rows = map (fun t => default 0%Q (td_amount t)) tasks.
Proof.
  intros E st data tasks Hproj Htasks Hne Hall.
  unfold run_request, create_contract, bind, get, ret, raise, modify, commit, generate_id.
  cbn -[find_active_project insert_contract_tasks nonempty_tasks find sumQ].
  destruct (find_active_project st (ccr_project_id data)); [|contradiction].
  rewrite Htasks, (nonempty_tasks_cons tasks Hne).
  cbn -[insert_contract_tasks find sumQ].
  rewrite insert_contract_tasks_run by exact Hall.
  unfold get_contract, bind, get, ret, raise. cbn -[find sumQ].
  match goal with
  | |- context [find ?P (?l ++ [?x])] =>
      destruct (find_app_hit P l x) as [y Hy];
        [cbv beta; apply andb_true_intro; split; [apply String.eqb_eq; reflexivity|reflexivity]|]
  end.
  rewrite Hy.
  pose proof (task_dict_rows_fields E ("con-" ++ env_hex E 0) tasks 0 1 (fun _ => (0%Q, 0%Q))
                (env_now E)) as [H1 [H2 H3]].
  eexists _, _, _, _. split; [reflexivity|].
  split; [reflexivity|]. split; [reflexivity|]. split; [reflexivity|].
  split; [reflexivity|]. split; [exact H3|]. split; [exact H1|exact H2].
Qed.

(** [create_contract] with a task dict that has no [name] key raises
    [KeyError] after inserting the contract row but before the commit, so
    nothing is written. *)
Theorem create_contract_missing_name_writes_nothing : forall E st data tasks,
  find_active_project st (ccr_project_id data) <> None ->
  ccr_tasks data = Some tasks ->
  (exists t, In t tasks /\ td_name t = None) ->
  run_request (create_contract E data) st = (Raise (KeyError "name"), st).
Proof.
  intros E st data tasks Hproj Htasks Hmiss.
  assert (Hne : tasks <> []) by (destruct Hmiss as [t [Hin _]]; intros ->; contradiction).
  unfold run_request, create_contract, bind, get, ret, raise, modify, commit, generate_id.
  cbn -[find_active_project insert_contract_tasks nonempty_tasks find sumQ].
  destruct (find_active_project st (ccr_project_id data)); [|contradiction].
  rewrite Htasks, (nonempty_tasks_cons tasks Hne).
  cbn -[insert_contract_tasks find sumQ].
  match goal with
  | |- context [insert_contract_tasks ?a ?b ?c ?d ?e ?f ?tx1] =>
      destruct (insert_contract_tasks_missing_name a b d c e f tx1 Hmiss) as [tx' [Hrun Hc]]
  end.
  rewrite Hrun. simpl in Hc. rewrite Hc. reflexivity.
Qed.

Lemma create_contract_total_from_tasks_witness :
  find_active_project demo_db (ccr_project_id demo_contract_create) <> None /\
  ccr_tasks demo_contract_create = Some demo_task_dicts /\ demo_task_dicts <> [] /\
  Forall (fun t => td_name t <> None) demo_task_dicts /\
  exists cv st' c rows,
    run_request (create_contract demo_env demo_contract_create) demo_db = (Ok cv, st') /\
    contracts st' = (contracts demo_db ++ [c])%list /\
    c_project_id c = ccr_project_id demo_contract_create /\
    c_total_amount c = sumQ (map (fun t => default 0%Q (td_amount t)) demo_task_dicts) /\
    contract_tasks st' = (contract_tasks demo_db ++ rows)%list /\
    Forall (fun r => ct_contract_id r = c_id c) rows /\
    map ct_sort_order rows = seq 1 (length demo_task_dicts) /\
    map ct_amount rows = map (fun t => default 0%Q (td_amount t)) demo_task_dicts.
Proof.
  split; [vm_compute; discriminate|]. split; [reflexivity|]. split; [discriminate|].
  split; [repeat constructor; discriminate|].
  apply (create_contract_total_from_tasks demo_env demo_db demo_contract_create demo_task_dicts);
    [vm_compute; discriminate|reflexivity|discriminate|repeat constructor; discriminate].
Defined.

Lemma create_contract_missing_name_writes_nothing_witness :
  find_active_project demo_db (ccr_project_id demo_bad_contract_create) <> None /\
  ccr_tasks demo_bad_contract_create = Some demo_bad_task_dicts /\
  (exists t, In t demo_bad_task_dicts /\ td_name t = None) /\
  run_request (create_contract demo_env demo_bad_contract_create) demo_db =
  (Raise (KeyError "name"), demo_db).
Proof.
  assert (Hmiss : exists t, In t demo_bad_task_dicts /\ td_name t = None)
    by (eexists; split; [right; left; reflexivity|reflexivity]).
  split; [vm_compute; discriminate|]. split; [reflexivity|]. split; [exact Hmiss|].
  apply (create_contract_missing_name_writes_nothing demo_env demo_db demo_bad_contract_create
           demo_bad_task_dicts); [vm_compute; discriminate|reflexivity|exact Hmiss].
Defined.

Lemma active_contract_update : forall contract_id data now c,
  (fun c => String.eqb (c_id c) contract_id && is_none (c_deleted_at c))
    ((fun c => if String.eqb (c_id c) contract_id then apply_contract_update data now c else c) c)
  = String.eqb (c_id c) contract_id && is_none (c_deleted_at c).
Proof.
  intros. cbv beta. destruct (String.eqb (c_id c) contract_id) eqn:E; simpl; rewrite ?E; reflexivity.
Qed.

Lemma filter_filter_negb {A} (P : A -> bool) (l : list A) :
  filter P (filter (fun x => negb (P x)) l) = [].
Proof.
  induction l as [|x l IH]; simpl; [reflexivity|].
  destruct (P x) eqn:Hx; simpl; [exact IH|rewrite Hx; exact IH].
Qed.

Lemma set_total_in_map : forall contract_id total now (l : list Contract) c,
  In c (map (fun c => if String.eqb (c_id c) contract_id
                      then set_contract_total c total now else c) l) ->
  c_id c = contract_id -> c_total_amount c = total.
Proof.
  intros contract_id total now l c Hin Hid. apply in_map_iff in Hin as [c0 [<- _]].
  destruct (String.eqb (c_id c0) contract_id) eqn:Hc; [reflexivity|].
  apply String.eqb_neq in Hc. contradiction.
Qed.

(** [update_contract] with a [tasks] list (every dict with a [name]) on an
    active contract replaces all of that contract's tasks by the listed
    ones, with sort orders 1, ..., n, keeps every other contract's tasks,
    and sets the contract's [total_amount] to the sum of the listed
    amounts. *)
Theorem update_contract_replaces_tasks : forall E st contract_id data tasks,
  find_active_contract st contract_id <> None ->
  cu_tasks data = Some tasks ->
  Forall (fun t => td_name t <> None) tasks ->
  exists cv st' rows,
    run_request (update_contract E contract_id data) st = (Ok cv, st') /\
    contract_tasks st' =
      (filter (fun t => negb (String.eqb (ct_contract_id t) contract_id)) (contract_tasks st)
       ++ rows)%list /\
    Forall (fun r => ct_contract_id r = contract_id) rows /\
    map ct_sort_order rows = seq 1 (length tasks) /\
    map ct_amount rows = map (fun t => default 0%Q (td_amount t)) tasks /\
    (forall c, In c (contracts st') -> c_id c = contract_id ->
               c_total_amount c = sumQ (map (fun t => default 0%Q (td_amount t)) tasks)).
Proof.
  intros E st contract_id data tasks Hact Htasks Hall.
  destruct (find_active_contract st contract_id) as [c0|] eqn:Hf; [|contradiction].
  pose proof (task_dict_rows_fields E contract_id tasks 0 0
                (fun t => (default 0%Q (td_billed_amount t), default 0%Q (td_billed_percent t)))
                (env_now E)) as [H1 [H2 H3]].
  set (rows := task_dict_rows E contract_id 0 0 tasks
                 (fun t => (default 0%Q (td_billed_amount t), default 0%Q (td_billed_percent t)))
                 (env_now E)).
  assert (Htot : forall st0 l,
    contract_tasks_total
      (set_contract_tasks
         (filter (fun t => negb (String.eqb (ct_contract_id t) contract_id)) l
          ++ task_dict_rows E contract_id 0 0 tasks
               (fun t => (default 0%Q (td_billed_amount t), default 0%Q (td_billed_percent t)))
               (env_now E)) st0) contract_id
    = sumQ (map (fun t => default 0%Q (td_amount t)) tasks)).
  { intros st0 l. unfold contract_tasks_total. simpl.
    rewrite filter_app, filter_filter_negb, filter_all; [simpl; rewrite H2; reflexivity|].
    revert H3. apply Forall_impl. intros r Hr. rewrite Hr. apply String.eqb_refl. }
  unfold run_request, update_contract, bind, get, ret, raise, modify, commit,
    _update_contract_total, get_contract.
  cbn -[find_active_contract insert_contract_tasks find contract_tasks_total].
  rewrite Hf, Htasks.
  unfold find_active_contract in Hf.
  destruct (is_none (cu_signed_at data) && is_none (cu_file_path data) && is_none (cu_notes data));
    cbn -[insert_contract_tasks find contract_tasks_total];
    rewrite insert_contract_tasks_run by exact Hall;
    cbn -[find contract_tasks_total];
    rewrite find_map_same by apply active_contract_set_total.
  - rewrite Hf. simpl.
    eexists _, _; exists rows. split; [reflexivity|].
    split; [reflexivity|]. split; [exact H3|]. split; [exact H1|]. split; [exact H2|].
    intros c Hin Hid. cbn [contracts set_contracts] in Hin.
    erewrite (set_total_in_map _ _ _ _ c Hin Hid). apply Htot.
  - rewrite find_map_same by apply active_contract_update.
    rewrite Hf. simpl.
    eexists _, _; exists rows. split; [reflexivity|].
    split; [reflexivity|]. split; [exact H3|]. split; [exact H1|]. split; [exact H2|].
    intros c Hin Hid. cbn [contracts set_contracts] in Hin.
    erewrite (set_total_in_map _ _ _ _ c Hin Hid). apply Htot.
Qed.

Lemma update_contract_replaces_tasks_witness :
  find_active_contract demo_db "con-1" <> None /\
  cu_tasks demo_contract_update = Some demo_task_dicts /\
  Forall (fun t => td_name t <> None) demo_task_dicts /\
  exists cv st' rows,
    run_request (update_contract demo_env "con-1" demo_contract_update) demo_db = (Ok cv, st') /\
    contract_tasks st' =
      (filter (fun t => negb (String.eqb (ct_contract_id t) "con-1")) (contract_tasks demo_db)
       ++ rows)%list /\
    Forall (fun r => ct_contract_id r = "con-1") rows /\
    map ct_sort_order rows = seq 1 (length demo_task_dicts) /\
    map ct_amount rows = map (fun t => default 0%Q (td_amount t)) demo_task_dicts /\
    (forall c, In c (contracts st') -> c_id c = "con-1" ->
               c_total_amount c = sumQ (map (fun t => default 0%Q (td_amount t)) demo_task_dicts)).
Proof.
  split; [vm_compute; discriminate|]. split; [reflexivity|].
  split; [repeat constructor; discriminate|].
  apply (update_contract_replaces_tasks demo_env demo_db "con-1" demo_contract_update
           demo_task_dicts); [vm_compute; discriminate|reflexivity|repeat constructor; discriminate].
Defined.

(** ** Proposals and proposal tasks *)

Lemma set_proposal_tasks_twice : forall l1 l2 st,
  set_proposal_tasks l2 (set_proposal_tasks l1 st) = set_proposal_tasks l2 st.
Proof. intros l1 l2 []; reflexivity. Qed.

Lemma proposal_tasks_max_order_ge : forall st proposal_id t,
  In t (proposal_tasks st) -> pt_proposal_id t = proposal_id ->
  pt_sort_order t <= proposal_tasks_max_order st proposal_id.
Proof.
  intros st proposal_id t Hin Hc. unfold proposal_tasks_max_order.
  apply fold_max_ge, in_map, filter_In. split; [exact Hin|].
  apply String.eqb_eq; exact Hc.
Qed.

Lemma active_proposal_set_total : forall proposal_id total now p,
  (fun p => String.eqb (pr_id p) proposal_id && is_none (pr_deleted_at p))
    ((fun p => if String.eqb (pr_id p) proposal_id
               then set_proposal_total p total now else p) p)
  = String.eqb (pr_id p) proposal_id && is_none (pr_deleted_at p).
Proof.
  intros. cbv beta. destruct (String.eqb (pr_id p) proposal_id) eqn:Hp; simpl; rewrite ?Hp; reflexivity.
Qed.

(** [add_proposal_task] on an active proposal commits one new task of that
    proposal, numbered after every task it already has, sets the
    proposal's [total_fee] to the sum of its tasks' amounts, the new one
    included, and returns the proposal's tasks in [sort_order]; on a
    missing or deleted proposal it raises NotFound and writes nothing. *)
Theorem add_proposal_task_updates_total : forall E st proposal_id data,
  match find_active_proposal st proposal_id with
  | None =>
      run_request (add_proposal_task E proposal_id data) st =
      (Raise (HTTPException 404 "Proposal not found"), st)
  | Some _ =>
      exists p st' row,
        run_request (add_proposal_task E proposal_id data) st =
          (Ok (p, proposal_tasks_of st' proposal_id), st') /\
        proposal_tasks st' = (proposal_tasks st ++ [row])%list /\
        pt_proposal_id row = proposal_id /\ pt_name row = ptc_name data /\
        pt_description row = ptc_description data /\ pt_amount row = ptc_amount data /\
        (forall t, In t (proposal_tasks st) -> pt_proposal_id t = proposal_id ->
                   pt_sort_order t < pt_sort_order row) /\
        proposals st' =
          map (fun p => if String.eqb (pr_id p) proposal_id
                        then set_proposal_total p (proposal_tasks_total st' proposal_id) (env_now E)
                        else p) (proposals st) /\
        (proposal_tasks_total st' proposal_id ==
         proposal_tasks_total st proposal_id + ptc_amount data)%Q
  end.
Proof.
  intros E st proposal_id data. unfold find_active_proposal.
  unfold run_request, add_proposal_task, _get_proposal_with_tasks, _get_proposal_dict,
    bind, get, ret, raise, modify, commit, generate_id, _update_proposal_total.
  cbn -[find proposal_tasks_max_order proposal_tasks_total proposal_tasks_of].
  destruct (find _ (proposals st)) as [pr|] eqn:Hf; [|reflexivity].
  cbn -[find proposal_tasks_max_order proposal_tasks_total proposal_tasks_of].
  rewrite find_map_same by apply active_proposal_set_total.
  rewrite Hf. cbn -[proposal_tasks_max_order proposal_tasks_total proposal_tasks_of].
  eexists _, _, _. split; [reflexivity|].
  split; [reflexivity|].
  repeat split; cbn -[proposal_tasks_max_order proposal_tasks_total].
  - intros t Hin Hc. pose proof (proposal_tasks_max_order_ge st proposal_id t Hin Hc). lia.
  - unfold proposal_tasks_total. simpl. rewrite filter_app, map_app, sumQ_app.
    simpl. rewrite String.eqb_refl. simpl. unfold sumQ at 2. simpl. ring.
Qed.

(** [delete_proposal_task] removes the task and sets its proposal's
    [total_fee] to the sum of the amounts of the tasks left; a task id that
    is not a task of that proposal raises NotFound and writes nothing. *)
Theorem delete_proposal_task_updates_total : forall E st proposal_id task_id,
  match find_proposal_task st task_id proposal_id with
  | None =>
      run_request (delete_proposal_task E proposal_id task_id) st =
      (Raise (HTTPException 404 "Task not found"), st)
  | Some _ =>
      exists st',
        run_request (delete_proposal_task E proposal_id task_id) st = (Ok tt, st') /\
        proposal_tasks st' =
          filter (fun t => negb (String.eqb (pt_id t) task_id)) (proposal_tasks st) /\
        proposals st' =
          map (fun p => if String.eqb (pr_id p) proposal_id
                        then set_proposal_total p (proposal_tasks_total st' proposal_id) (env_now E)
                        else p) (proposals st)
  end.
Proof.
  intros E st proposal_id task_id.
  unfold run_request, delete_proposal_task, bind, get, ret, raise, modify, commit,
    _update_proposal_total.
  cbn -[find_proposal_task proposal_tasks_total].
  destruct (find_proposal_task st task_id proposal_id); [|reflexivity].
  eexists. split; [reflexivity|]. split; reflexivity.
Qed.

(** [update_proposal_task] with at least one field to change commits the
    change and the proposal's new [total_fee] before it reads the proposal
    back: on a task of a soft-deleted proposal the response is NotFound
    although the writes are kept. *)
Theorem update_proposal_task_commits_total : forall E st proposal_id task_id data,
  find_proposal_task st task_id proposal_id <> None ->
  no_proposal_task_updates data = false ->
  exists st',
    proposal_tasks st' =
      map (fun t => if String.eqb (pt_id t) task_id then apply_proposal_task_update data t else t)
          (proposal_tasks st) /\
    proposals st' =
      map (fun p => if String.eqb (pr_id p) proposal_id
                    then set_proposal_total p (proposal_tasks_total st' proposal_id) (env_now E)
                    else p) (proposals st) /\
    match find_active_proposal st proposal_id with
    | None =>
        run_request (update_proposal_task E proposal_id task_id data) st =
        (Raise (HTTPException 404 "Proposal not found"), st')
    | Some _ =>
        exists p, run_request (update_proposal_task E proposal_id task_id data) st =
                  (Ok (p, proposal_tasks_of st' proposal_id), st')
    end.
Proof.
  intros E st proposal_id task_id data Hfind Hupd.
  unfold run_request, update_proposal_task, _get_proposal_with_tasks, _get_proposal_dict,
    bind, get, ret, raise, modify, commit, _update_proposal_total.
  cbn -[find_proposal_task proposal_tasks_total find no_proposal_task_updates proposal_tasks_of].
  destruct (find_proposal_task st task_id proposal_id); [|contradiction].
  rewrite Hupd. cbn -[proposal_tasks_total find proposal_tasks_of].
  rewrite find_map_same by apply active_proposal_set_total.
  set (st1 := set_proposal_tasks
                (map (fun t => if String.eqb (pt_id t) task_id
                               then apply_proposal_task_update data t else t)
                     (proposal_tasks st)) st).
  exists (set_proposals
            (map (fun p => if String.eqb (pr_id p) proposal_id
                           then set_proposal_total p (proposal_tasks_total st1 proposal_id)
                                  (env_now E) else p) (proposals st1)) st1).
  split; [reflexivity|]. split; [reflexivity|].
  unfold find_active_proposal.
  destruct (find _ (proposals st)); simpl; [eexists|]; reflexivity.
Qed.

Lemma update_proposal_task_commits_total_witness :
  find_proposal_task demo_proposals_db "pt-9" "pr-9" <> None /\
  no_proposal_task_updates demo_proposal_task_update = false /\
  exists st',
    proposal_tasks st' =
      map (fun t => if String.eqb (pt_id t) "pt-9"
                    then apply_proposal_task_update demo_proposal_task_update t else t)
          (proposal_tasks demo_proposals_db) /\
    proposals st' =
      map (fun p => if String.eqb (pr_id p) "pr-9"
                    then set_proposal_total p (proposal_tasks_total st' "pr-9") (env_now demo_env)
                    else p) (proposals demo_proposals_db) /\
    match find_active_proposal demo_proposals_db "pr-9" with
    | None =>
        run_request (update_proposal_task demo_env "pr-9" "pt-9" demo_proposal_task_update)
          demo_proposals_db = (Raise (HTTPException 404 "Proposal not found"), st')
    | Some _ =>
        exists p, run_request (update_proposal_task demo_env "pr-9" "pt-9"
                                 demo_proposal_task_update) demo_proposals_db =
                  (Ok (p, proposal_tasks_of st' "pr-9"), st')
    end.
Proof.
  split; [vm_compute; discriminate|]. split; [reflexivity|].
  apply (update_proposal_task_commits_total demo_env demo_proposals_db "pr-9" "pt-9"
           demo_proposal_task_update); [vm_compute; discriminate|reflexivity].
Defined.

(** [delete_proposal] soft-deletes an active proposal, keeps its tasks and
    appends one "deleted" activity row; afterwards promoting or deleting
    the proposal raises NotFound.  On a missing or deleted proposal it
    raises NotFound and writes nothing. *)
Theorem delete_proposal_soft : forall E E' st proposal_id signed_at file_path,
  match find_active_proposal st proposal_id with
  | None =>
      run_request (delete_proposal E proposal_id) st =
      (Raise (HTTPException 404 "Proposal not found"), st)
  | Some pr =>
      exists st',
        run_request (delete_proposal E proposal_id) st = (Ok tt, st') /\
        proposals st' =
          map (fun p => if String.eqb (pr_id p) proposal_id
                        then set_proposal_deleted p (env_now E) else p) (proposals st) /\
        proposal_tasks st' = proposal_tasks st /\
        activity_log st' =
          (activity_log st ++
           [{| act_id := "act-" ++ env_hex E 0; act_action := "deleted";
               act_entity_type := "proposal"; act_entity_id := proposal_id;
               act_project_id := Some (pr_project_id pr) |}])%list /\
        run_request (promote_to_contract E' proposal_id signed_at file_path) st' =
          (Raise (HTTPException 404 "Proposal not found"), st') /\
        run_request (delete_proposal E' proposal_id) st' =
          (Raise (HTTPException 404 "Proposal not found"), st')
  end.
Proof.
  intros E E' st proposal_id signed_at file_path.
  destruct (find_active_proposal st proposal_id) as [pr|] eqn:Hf.
  2:{ unfold run_request, delete_proposal, bind, get, raise. cbn -[find_active_proposal].
      rewrite Hf. reflexivity. }
  unfold run_request at 1. unfold delete_proposal at 1.
  unfold log_activity, bind, get, ret, raise, modify, commit, generate_id.
  cbn -[find_active_proposal run_request]. rewrite Hf.
  set (st1 := set_activity_log
    (activity_log st ++
     [{| act_id := "act-" ++ env_hex E 0; act_action := "deleted";
         act_entity_type := "proposal"; act_entity_id := proposal_id;
         act_project_id := Some (pr_project_id pr) |}])
    (set_proposals
       (map (fun p => if String.eqb (pr_id p) proposal_id
                      then set_proposal_deleted p (env_now E) else p) (proposals st)) st)).
  exists st1. split; [reflexivity|]. split; [reflexivity|]. split; [reflexivity|].
  split; [reflexivity|].
  assert (Hnone : find_active_proposal st1 proposal_id = None).
  { unfold find_active_proposal. simpl. apply find_map_false. intros p.
    destruct (String.eqb (pr_id p) proposal_id) eqn:Hp; simpl; rewrite ?Hp; reflexivity. }
  split.
  - pose proof (promote_to_contract_run E' st1 proposal_id signed_at file_path) as Hrun.
    rewrite Hnone in Hrun. exact Hrun.
  - unfold run_request, delete_proposal, bind, get, raise. cbn -[find_active_proposal st1].
    rewrite Hnone. reflexivity.
Qed.

Lemma insert_proposal_tasks_run : forall E proposal_id tasks i db c d,
  insert_proposal_tasks E proposal_id i tasks (mkTx db c d) =
  (Ok tt, mkTx (set_proposal_tasks
                  (proposal_tasks db ++ proposal_task_rows E proposal_id i d tasks) db)
               c (d + length tasks)).
Proof.
  intros E proposal_id tasks. induction tasks as [|t tasks IH]; intros i db c d.
  - simpl. rewrite app_nil_r, Nat.add_0_r. destruct db; reflexivity.
  - simpl. unfold bind, generate_id, modify, ret. simpl.
    rewrite IH. simpl. rewrite set_proposal_tasks_twice, <- app_assoc.
    replace (d + S (length tasks)) with (S d + length tasks) by lia.
    reflexivity.
Qed.

Lemma proposal_task_rows_fields : forall E proposal_id tasks i d,
  map pt_sort_order (proposal_task_rows E proposal_id i d tasks) = seq (S i) (length tasks) /\
  map pt_amount (proposal_task_rows E proposal_id i d tasks) = map ptc_amount tasks /\
  map pt_name (proposal_task_rows E proposal_id i d tasks) = map ptc_name tasks /\
  Forall (fun r => pt_proposal_id r = proposal_id) (proposal_task_rows E proposal_id i d tasks).
Proof.
  intros E proposal_id tasks. induction tasks as [|t tasks IH]; intros i d; simpl.
  - repeat split; constructor.
  - destruct (IH (S i) (S d)) as [H1 [H2 [H3 H4]]].
    rewrite H1, H2, H3. repeat split; constructor; [reflexivity|exact H4].
Qed.

(** [create_proposal] on an active project with a non-empty [tasks] list
    appends one proposal under that project and one task per entry, with
    sort orders 1, 2, ..., n and the given names and amounts.  The
    proposal's [total_fee] is the sum of the task amounts only when the
    request's [total_fee] is 0; any other [total_fee] is kept as given. *)
Theorem create_proposal_fee_rule : forall E st data tasks,
  find_active_project st (pc_project_id data) <> None ->
  pc_tasks data = Some tasks -> tasks <> [] ->
  exists p st' rows r,
    run_request (create_proposal E data) st = (Ok (r, proposal_tasks_of st' (pr_id p)), st') /\
    proposals st' = (proposals st ++ [p])%list /\
    pr_project_id p = pc_project_id data /\
    pr_deleted_at p = None /\
    pr_total_fee p = (if Qeq_bool (pc_total_fee data) 0
                      then sumQ (map ptc_amount tasks) else pc_total_fee data) /\
    proposal_tasks st' = (proposal_tasks st ++ rows)%list /\
    Forall (fun r => pt_proposal_id r = pr_id p) rows /\
    map pt_sort_order rows = seq 1 (length tasks) /\
    map pt_name rows = map ptc_name tasks /\
    map pt_amount rows = map ptc_amount tasks.
Proof.
  intros E st data tasks Hproj Htasks Hne.
  unfold run_request, create_proposal, bind, get, ret, raise, modify, commit, generate_id.
  cbn -[find_active_project insert_proposal_tasks nonempty_tasks find sumQ].
  destruct (find_active_project st (pc_project_id data)); [|contradiction].
  rewrite Htasks, (nonempty_tasks_cons tasks Hne).
  cbn -[insert_proposal_tasks find sumQ].
  rewrite insert_proposal_tasks_run.
  unfold _get_proposal_with_tasks, _get_proposal_dict, bind, get, ret, raise.
  cbn -[find sumQ proposal_tasks_of].
  match goal with
  | |- context [find ?P (?l ++ [?x])] =>
      destruct (find_app_hit P l x) as [y Hy];
        [cbv beta; apply andb_true_intro; split; [apply String.eqb_eq; reflexivity|reflexivity]|]
  end.
  rewrite Hy.
  pose proof (proposal_task_rows_fields E ("prop-" ++ env_hex E 0) tasks 0 1)
    as [H1 [H2 [H3 H4]]].
  set (newp := {| pr_id := "prop-" ++ env_hex E 0; pr_project_id := pc_project_id data;
                  pr_total_fee := if Qeq_bool (pc_total_fee data) 0
                                  then sumQ (map ptc_amount tasks) else pc_total_fee data;
                  pr_status := pc_status data; pr_updated_at := Some (env_now E);
                  pr_deleted_at := None |}).
  exists newp,
    (set_proposal_tasks
       (proposal_tasks st ++ proposal_task_rows E ("prop-" ++ env_hex E 0) 0 1 tasks)
       (set_proposals (proposals st ++ [newp]) st)),
    (proposal_task_rows E ("prop-" ++ env_hex E 0) 0 1 tasks), y.
  split; [reflexivity|].
  split; [reflexivity|]. split; [reflexivity|]. split; [reflexivity|].
  split; [reflexivity|]. split; [reflexivity|].
  split; [exact H4|]. split; [exact H1|]. split; [exact H3|exact H2].
Qed.

Lemma create_proposal_fee_rule_witness :
  find_active_project demo_db (pc_project_id demo_proposal_create) <> None /\
  pc_tasks demo_proposal_create =
    Some [mkProposalTaskCreate "Survey" None 300; mkProposalTaskCreate "Design" None 700] /\
  exists p st' rows r,
    run_request (create_proposal demo_env demo_proposal_create) demo_db =
      (Ok (r, proposal_tasks_of st' (pr_id p)), st') /\
    proposals st' = (proposals demo_db ++ [p])%list /\
    pr_project_id p = "P1" /\
    pr_deleted_at p = None /\
    pr_total_fee p = (if Qeq_bool 500 0 then sumQ [300; 700] else 500)%Q /\
    proposal_tasks st' = (proposal_tasks demo_db ++ rows)%list /\
    Forall (fun r => pt_proposal_id r = pr_id p) rows /\
    map pt_sort_order rows = seq 1 2 /\
    map pt_name rows = ["Survey"; "Design"] /\
    map pt_amount rows = [300; 700]%Q.
Proof.
  split; [vm_compute; discriminate|]. split; [reflexivity|].
  apply (create_proposal_fee_rule demo_env demo_db demo_proposal_create
           [mkProposalTaskCreate "Survey" None 300; mkProposalTaskCreate "Design" None 700]);
    [vm_compute; discriminate|reflexivity|discriminate].
Defined.

(** A stated [total_fee] of 500 is stored as is next to tasks of 300 and
    700: the new proposal's fee and the sum of its tasks differ. *)
Example create_proposal_keeps_stated_fee :
  exists p tasks st',
    run_request (create_proposal demo_env demo_proposal_create) demo_db = (Ok (p, tasks), st') /\
    pr_total_fee p = 500%Q /\ sumQ (map pt_amount tasks) == 1000%Q /\
    proposal_tasks_total st' (pr_id p) == 1000%Q.
Proof.
  vm_compute. eexists _, _, _. split; [reflexivity|].
  split; [reflexivity|]. split; reflexivity.
Qed.

Lemma invoices_after_delete : forall E st invoice_id inv,
  find_active_invoice st invoice_id = Some inv ->
  invoices (snd (run_request (delete_invoice E invoice_id) st)) =
  map (fun i => if String.eqb (i_id i) invoice_id then set_deleted_at i (env_now E) else i)
      (invoices st).
Proof.
  intros E st invoice_id inv Hf. rewrite delete_invoice_run, Hf. cbn.
  destruct (py_truthy (i_project_id inv)); reflexivity.
Qed.

(** After [delete_invoice] of an active invoice, [get_invoice] on its id
    raises NotFound, and [get_invoice_by_number] never returns the deleted
    invoice: for any number it raises NotFound or returns an invoice with
    another id.  Neither read changes the store. *)
Theorem get_invoice_after_delete : forall E st invoice_id inv number,
  find_active_invoice st invoice_id = Some inv ->
  let st' := snd (run_request (delete_invoice E invoice_id) st) in
  run_request (get_invoice invoice_id) st' =
    (Raise (HTTPException 404 "Invoice not found"), st') /\
  (run_request (get_invoice_by_number number) st' =
     (Raise (HTTPException 404 "Invoice not found"), st') \/
   exists i, i_id i <> invoice_id /\
     run_request (get_invoice_by_number number) st' = (Ok (i, line_items_of st' (i_id i)), st')).
Proof.
  intros E st invoice_id inv number Hf st'.
  pose proof (invoices_after_delete E st invoice_id inv Hf) as Hinv. fold st' in Hinv.
  split.
  - unfold run_request, get_invoice, bind, get, raise. cbn -[find_active_invoice].
    replace (find_active_invoice st' invoice_id) with (@None Invoice); [reflexivity|].
    symmetry. unfold find_active_invoice. rewrite Hinv.
    apply find_map_false. intros x.
    destruct (String.eqb (i_id x) invoice_id) eqn:Hx; simpl; rewrite Hx; reflexivity.
  - unfold run_request, get_invoice_by_number, bind, get, raise, ret. cbn -[find].
    destruct (find _ (invoices st')) as [i|] eqn:Hfind; [right|left; reflexivity].
    exists i. split; [|reflexivity].
    apply find_some in Hfind as [Hin HP]. rewrite Hinv in Hin.
    apply in_map_iff in Hin as [x [<- _]].
    destruct (String.eqb (i_id x) invoice_id) eqn:Hx.
    + simpl in HP. rewrite andb_false_r in HP. discriminate.
    + apply String.eqb_neq. exact Hx.
Qed.

Lemma get_invoice_after_delete_witness :
  find_active_invoice demo_db "inv-1" = Some demo_invoice /\
  let st' := snd (run_request (delete_invoice demo_env "inv-1") demo_db) in
  run_request (get_invoice "inv-1") st' =
    (Raise (HTTPException 404 "Invoice not found"), st') /\
  (run_request (get_invoice_by_number "PROJ-2") st' =
     (Raise (HTTPException 404 "Invoice not found"), st') \/
   exists i, i_id i <> "inv-1" /\
     run_request (get_invoice_by_number "PROJ-2") st' = (Ok (i, line_items_of st' (i_id i)), st')).
Proof.
  split; [reflexivity|].
  apply (get_invoice_after_delete demo_env demo_db "inv-1" demo_invoice "PROJ-2").
  reflexivity.
Defined.

Lemma string_app_nil_r : forall s, (s ++ "")%string = s.
Proof. induction s as [|c s IH]; simpl; [reflexivity|rewrite IH; reflexivity]. Qed.

Lemma string_app_assoc : forall a b c, ((a ++ b) ++ c)%string = (a ++ (b ++ c))%string.
Proof. induction a as [|x a IH]; intros b c; simpl; [reflexivity|rewrite IH; reflexivity]. Qed.

Lemma strip_slash_none : forall sep' c s,
  c <> "/"%char -> strip_prefix (String "/" sep') (String c s) = None.
Proof.
  intros sep' c s Hc.
  change (strip_prefix (String "/" sep') (String c s))
    with (if Ascii.eqb "/" c then strip_prefix sep' s else None).
  destruct (Ascii.eqb "/" c) eqn:E; [apply Ascii.eqb_eq in E; congruence|reflexivity].
Qed.

Lemma split_go_skip : forall sep' d r cur f,
  no_slash d -> String.length d < f ->
  split_go f (String "/" sep') (d ++ r) cur =
  split_go (f - String.length d) (String "/" sep') r (cur ++ d).
Proof.
  intros sep' d. induction d as [|c d IH]; intros r cur f Hd Hf.
  - simpl. rewrite Nat.sub_0_r, string_app_nil_r. reflexivity.
  - inversion Hd as [|? ? Hc Hrest]; subst.
    destruct f as [|f]; [simpl in Hf; lia|]. simpl in Hf. cbn [split_go String.append].
    rewrite strip_slash_none by exact Hc.
    rewrite IH by (exact Hrest || lia).
    rewrite string_app_assoc. reflexivity.
Qed.

Lemma split_go_head : forall sep f r cur,
  exists y z tl, split_go f sep r cur = (cur ++ y)%string :: tl /\ r = (y ++ z)%string.
Proof.
  intros sep f. induction f as [|f IH]; intros r cur.
  - exists r, "", []. split; [reflexivity|]. symmetry. apply string_app_nil_r.
  - destruct r as [|c rest].
    + exists "", "", []. simpl. rewrite string_app_nil_r. split; reflexivity.
    + simpl. destruct (strip_prefix sep (String c rest)) as [after|].
      * exists "", (String c rest), (split_go f sep after ""). rewrite string_app_nil_r.
        split; reflexivity.
      * destruct (IH rest (cur ++ String c "")%string) as [y [z [tl [H1 H2]]]].
        exists (String c y), z, tl. rewrite H1, string_app_assoc. simpl.
        rewrite H2. split; reflexivity.
Qed.

Lemma split_go_no_slash : forall sep' s cur f,
  no_slash s -> String.length s < f ->
  split_go f (String "/" sep') s cur = [(cur ++ s)%string].
Proof.
  intros sep' s cur f Hs Hf.
  pose proof (split_go_skip sep' s "" cur f Hs Hf) as H.
  rewrite string_app_nil_r in H. rewrite H.
  destruct (f - String.length s) eqn:E; [lia|reflexivity].
Qed.

Lemma id_run_app : forall d r,
  Forall (fun c => is_id_char c = true) (list_ascii_of_string d) ->
  (r = "" \/ exists c r', r = String c r' /\ is_id_char c = false) ->
  id_run (d ++ r) = d.
Proof.
  intros d r. induction d as [|c d IH]; intros Hd Hr.
  - destruct Hr as [->|[c [r' [-> Hc]]]]; simpl; [reflexivity|rewrite Hc; reflexivity].
  - inversion Hd as [|? ? Hc Hrest]; subst. simpl. rewrite Hc, IH by assumption. reflexivity.
Qed.

Lemma search_spreadsheet_id_no_slash : forall s,
  no_slash s -> search_spreadsheet_id s = None.
Proof.
  induction s as [|c s IH]; intros Hs; [reflexivity|].
  inversion Hs as [|? ? Hc Hrest]; subst. cbn [search_spreadsheet_id].
  rewrite strip_slash_none by exact Hc.
  apply IH. exact Hrest.
Qed.

Lemma string_length_app : forall a b,
  String.length (a ++ b) = String.length a + String.length b.
Proof. induction a as [|c a IH]; intros b; simpl; [reflexivity|rewrite IH; reflexivity]. Qed.

Lemma py_truthy_nonempty : forall s, s <> "" -> py_truthy s = true.
Proof.
  intros s Hs. unfold py_truthy. destruct (String.eqb s "") eqn:E; [|reflexivity].
  apply String.eqb_eq in E. contradiction.
Qed.

Lemma py_split_doc_url : forall X,
  py_split "/d/" ("https://docs.google.com/document/d/" ++ X) =
  "https://docs.google.com/document" :: split_go (S (S (S (String.length X)))) "/d/" X "".
Proof. intros X. reflexivity. Qed.

(** A prefix of a string that is empty or starts with "/" is empty or
    starts with "/". *)
Lemma prefix_of_slash : forall y z rest,
  (rest = "" \/ exists r, rest = String "/" r) -> rest = (y ++ z)%string ->
  y = "" \/ exists y', y = String "/" y'.
Proof.
  intros y z rest Hrest ->. destruct y as [|c y']; [left; reflexivity|right].
  destruct Hrest as [H|[r H]]; [discriminate|]. injection H as -> _. exists y'. reflexivity.
Qed.

Lemma py_split_slash_head : forall d y,
  no_slash d -> (y = "" \/ exists y', y = String "/" y') ->
  hd "" (py_split "/" (d ++ y)) = d.
Proof.
  intros d y Hd Hy. unfold py_split.
  assert (Hlt : String.length d < S (String.length (d ++ y))).
  { rewrite string_length_app. lia. }
  rewrite (split_go_skip "" d y "" (S (String.length (d ++ y))) Hd Hlt).
  rewrite string_length_app.
  destruct Hy as [->|[y' ->]].
  - replace (S (String.length d + String.length "") - String.length d) with 1 by (cbn [String.length]; lia).
    reflexivity.
  - replace (S (String.length d + String.length (String "/" y')) - String.length d)
      with (S (S (String.length y'))) by (cbn [String.length]; lia).
    reflexivity.
Qed.

(** [_extract_google_doc_id] returns the id of a Google Docs URL
    ".../document/d/<id>" followed by nothing or by "/...", for any id
    without a ['/'].  A bare id (a value without ['/']), and the empty
    string, give [None]: the callers then answer 400. *)
Theorem google_doc_id_parsing : forall doc_id rest raw,
  doc_id <> "" -> no_slash doc_id ->
  (rest = "" \/ exists r, rest = String "/" r) ->
  no_slash raw ->
  _extract_google_doc_id ("https://docs.google.com/document/d/" ++ doc_id ++ rest) = Some doc_id /\
  _extract_google_doc_id raw = None.
Proof.
  intros doc_id rest raw Hne Hid Hrest Hraw. split.
  - unfold _extract_google_doc_id.
    rewrite (py_truthy_nonempty ("https://docs.google.com/document/d/" ++ doc_id ++ rest))
      by (simpl; discriminate).
    rewrite py_split_doc_url. cbn [negb].
    rewrite (split_go_skip "d/" doc_id rest "") by (exact Hid || (rewrite string_length_app; lia)).
    match goal with
    | |- context [split_go ?f "/d/" rest ?cur] =>
        destruct (split_go_head "/d/" f rest cur) as [y [z [tl [H1 H2]]]]
    end.
    rewrite H1. cbn [String.append].
    rewrite (py_split_slash_head doc_id y Hid (prefix_of_slash y z rest Hrest H2)).
    rewrite (py_truthy_nonempty doc_id Hne). reflexivity.
  - unfold _extract_google_doc_id, py_split.
    destruct (negb (py_truthy raw)); [reflexivity|].
    rewrite (split_go_no_slash "d/" raw "" (S (String.length raw)) Hraw) by lia. reflexivity.
Qed.

Lemma search_spreadsheet_url : forall X,
  search_spreadsheet_id ("https://docs.google.com/spreadsheets/d/" ++ X) =
  let g := id_run X in
  if py_truthy g then Some g else search_spreadsheet_id ("spreadsheets/d/" ++ X).
Proof. intros X. reflexivity. Qed.

(** [_extract_spreadsheet_id] returns the id of a Google Sheets URL
    ".../spreadsheets/d/<id>" when the id is made of [a-zA-Z0-9_-] and is
    followed by nothing or by another character; it returns a bare value
    without ['/'] unchanged, and raises [ValueError] on an empty string. *)
Theorem spreadsheet_id_parsing : forall sheet_id rest raw,
  sheet_id <> "" ->
  Forall (fun c => is_id_char c = true) (list_ascii_of_string sheet_id) ->
  (rest = "" \/ exists c r, rest = String c r /\ is_id_char c = false) ->
  raw <> "" -> no_slash raw ->
  _extract_spreadsheet_id ("https://docs.google.com/spreadsheets/d/" ++ sheet_id ++ rest) =
    Ok sheet_id /\
  _extract_spreadsheet_id raw = Ok raw /\
  _extract_spreadsheet_id "" = Raise (ValueError "No sheet URL stored for this invoice").
Proof.
  intros sheet_id rest raw Hne Hid Hrest Hraw_ne Hraw.
  split; [|split; [|reflexivity]].
  - unfold _extract_spreadsheet_id.
    rewrite (py_truthy_nonempty ("https://docs.google.com/spreadsheets/d/" ++ sheet_id ++ rest))
      by (simpl; discriminate).
    rewrite search_spreadsheet_url. cbn [negb].
    rewrite (id_run_app sheet_id rest Hid Hrest), (py_truthy_nonempty sheet_id Hne).
    reflexivity.
  - unfold _extract_spreadsheet_id.
    rewrite (py_truthy_nonempty raw Hraw_ne), (search_spreadsheet_id_no_slash raw Hraw).
    reflexivity.
Qed.

Lemma google_doc_id_parsing_witness :
  "1aB_c-9" <> "" /\ no_slash "1aB_c-9" /\
  ("/edit" = "" \/ exists r, "/edit" = String "/" r) /\ no_slash "1aB_c-9" /\
  _extract_google_doc_id ("https://docs.google.com/document/d/" ++ "1aB_c-9" ++ "/edit") =
    Some "1aB_c-9" /\
  _extract_google_doc_id "1aB_c-9" = None.
Proof.
  assert (Hs : no_slash "1aB_c-9")
    by (unfold no_slash; cbn; repeat (apply Forall_cons; [discriminate|]); apply Forall_nil).
  assert (Hr : "/edit" = "" \/ exists r, "/edit" = String "/" r)
    by (right; exists "edit"; reflexivity).
  split; [discriminate|]. split; [exact Hs|]. split; [exact Hr|]. split; [exact Hs|].
  apply (google_doc_id_parsing "1aB_c-9" "/edit" "1aB_c-9"); [discriminate|exact Hs|exact Hr|exact Hs].
Defined.

Lemma spreadsheet_id_parsing_witness :
  "1aB_c-9" <> "" /\
  Forall (fun c => is_id_char c = true) (list_ascii_of_string "1aB_c-9") /\
  ("/edit" = "" \/ exists c r, "/edit" = String c r /\ is_id_char c = false) /\
  "1aB_c-9" <> "" /\ no_slash "1aB_c-9" /\
  _extract_spreadsheet_id ("https://docs.google.com/spreadsheets/d/" ++ "1aB_c-9" ++ "/edit") =
    Ok "1aB_c-9" /\
  _extract_spreadsheet_id "1aB_c-9" = Ok "1aB_c-9" /\
  _extract_spreadsheet_id "" = Raise (ValueError "No sheet URL stored for this invoice").
Proof.
  assert (Hs : no_slash "1aB_c-9")
    by (unfold no_slash; cbn; repeat (apply Forall_cons; [discriminate|]); apply Forall_nil).
  assert (Hc : Forall (fun c => is_id_char c = true) (list_ascii_of_string "1aB_c-9"))
    by (cbn; repeat (apply Forall_cons; [reflexivity|]); apply Forall_nil).
  assert (Hr : "/edit" = "" \/ exists c r, "/edit" = String c r /\ is_id_char c = false)
    by (right; exists "/"%char, "edit"; split; reflexivity).
  split; [discriminate|]. split; [exact Hc|]. split; [exact Hr|]. split; [discriminate|].
  split; [exact Hs|].
  apply (spreadsheet_id_parsing "1aB_c-9" "/edit" "1aB_c-9");
    [discriminate|exact Hc|exact Hr|discriminate|exact Hs].
Defined.

Lemma active_proposal_apply_update : forall proposal_id data now p,
  (fun p => String.eqb (pr_id p) proposal_id && is_none (pr_deleted_at p))
    ((fun p => if String.eqb (pr_id p) proposal_id
               then apply_proposal_update data now p else p) p)
  = String.eqb (pr_id p) proposal_id && is_none (pr_deleted_at p).
Proof.
  intros. cbv beta. destruct (String.eqb (pr_id p) proposal_id) eqn:Hp; simpl; rewrite ?Hp; reflexivity.
Qed.

(** [update_proposal] on an active proposal with at least one field set
    overwrites [total_fee] and [status] with the given values (others kept),
    stamps [updated_at], leaves the tasks alone, commits, and returns the
    updated proposal.  A PATCH with every field [None] writes nothing and
    returns the proposal as it is; a missing or deleted proposal raises
    NotFound and writes nothing. *)
Theorem update_proposal_patch : forall E st proposal_id data,
  match find_active_proposal st proposal_id with
  | None =>
      run_request (update_proposal E proposal_id data) st =
      (Raise (HTTPException 404 "Proposal not found"), st)
  | Some pr =>
      if no_proposal_updates data then
        run_request (update_proposal E proposal_id data) st =
        (Ok (pr, proposal_tasks_of st proposal_id), st)
      else
        let st' := set_proposals
                     (map (fun p => if String.eqb (pr_id p) proposal_id
                                    then apply_proposal_update data (env_now E) p else p)
                          (proposals st)) st in
        run_request (update_proposal E proposal_id data) st =
          (Ok (apply_proposal_update data (env_now E) pr, proposal_tasks_of st proposal_id), st') /\
        proposal_tasks st' = proposal_tasks st
  end.
Proof.
  intros E st proposal_id data.
  destruct (find_active_proposal st proposal_id) as [pr|] eqn:Hf.
  - unfold find_active_proposal in Hf.
    pose proof (find_some _ _ Hf) as [_ Hp]. apply andb_prop in Hp as [Hid _].
    unfold run_request, update_proposal, _get_proposal_with_tasks, _get_proposal_dict,
      bind, get, ret, raise, modify, commit.
    cbn -[find find_active_proposal proposal_tasks_of no_proposal_updates].
    unfold find_active_proposal. rewrite Hf.
    destruct (no_proposal_updates data).
    + cbn -[find proposal_tasks_of]. rewrite Hf. reflexivity.
    + cbn -[find proposal_tasks_of].
      rewrite find_map_same by apply active_proposal_apply_update.
      rewrite Hf. cbn -[proposal_tasks_of]. rewrite Hid. split; reflexivity.
  - unfold run_request, update_proposal, bind, get, raise.
    cbn -[find_active_proposal]. rewrite Hf. reflexivity.
Qed.

(** A fee set by PATCH does not survive the next task edit: pr-1 (tasks
    300 and 700) is patched to 1500, then a task of 50 is added, and the
    fee becomes 1050. *)
Example patched_fee_reset_by_task_edit :
  exists r1 st1 r2 st2,
    run_request (update_proposal demo_env "pr-1" demo_fee_patch) demo_db = (Ok r1, st1) /\
    pr_total_fee (fst r1) = 1500%Q /\
    run_request (add_proposal_task demo_env "pr-1" demo_new_proposal_task) st1 = (Ok r2, st2) /\
    pr_total_fee (fst r2) == 1050%Q.
Proof.
  vm_compute. eexists _, _, _, _. split; [reflexivity|]. split; [reflexivity|].
  split; [reflexivity|reflexivity].
Qed.
